(** * The ReAct agent of agentscope: control loop, tool coordinator,
      completion protocol and memory compaction

    Shallow embedding of [src/agentscope/agent/_react_agent.py].

    - A message ([Msg]) is a record with an identity, a role, an ordered
      list of content blocks and a metadata value.
    - The agent's mutable attributes are the fields of [ReActAgent]; a
      method is a computation in the monad [M], which threads the agent
      and keeps it when an exception is raised (Python's mutations are not
      rolled back), so that [try ... finally] can be written as it is in
      the source.
    - The collaborators (formatter, chat model, toolkit, token counter,
      plan notebook, retrieval) are the fields of [Env]: deterministic
      oracles whose answers say what was received and whether the await
      raised.
    - Speech synthesis and the progress observer ([self.print]) never
      touch the conversation log or the hint store and are left out. *)

From Stdlib Require Import ZArith Ascii.
From stdpp Require Import strings gmap list.

Set Default Proof Using "Type".
Set Warnings "-register-all,-clear-no-such-hyp".

(** ** Values *)

(** A JSON-like value: Python's [None], booleans, strings and dicts
    (insertion-ordered, as an association list). *)
Inductive Json :=
| JNone
| JBool (b : bool)
| JStr (s : string)
| JDict (fields : list (string * Json)).

(** Python truthiness, as used by [if x] and [[_ for _ in xs if _]]. *)
Definition truthy (j : Json) : bool :=
  match j with
  | JNone => false
  | JBool b => b
  | JStr s => negb (String.eqb s "")
  | JDict [] => false
  | JDict (_ :: _) => true
  end.

Fixpoint assoc_get (k : string) (l : list (string * Json)) : option Json :=
  match l with
  | [] => None
  | (k', v) :: l' => if String.eqb k k' then Some v else assoc_get k l'
  end.

(** [d.get(k, default)] on a metadata dict. *)
Definition dict_get (k : string) (default : Json) (d : Json) : Json :=
  match d with
  | JDict l => match assoc_get k l with Some v => v | None => default end
  | _ => default
  end.

Inductive Role := system | user | assistant.

(** Content blocks.  The output of a tool result is a string or a list of
    blocks. *)
Inductive ContentBlock :=
| TextBlock (text : string)
| ToolUseBlock (id name : string) (input : Json)
| ToolResultBlock (id name : string) (output : string + list ContentBlock)
| AudioBlock (data : string).

(** The ["type"] entry of a block. *)
Definition block_type (b : ContentBlock) : string :=
  match b with
  | TextBlock _ => "text"
  | ToolUseBlock _ _ _ => "tool_use"
  | ToolResultBlock _ _ _ => "tool_result"
  | AudioBlock _ => "audio"
  end.

(** [block["id"]] and [block["name"]] of a tool block. *)
Definition block_id (b : ContentBlock) : string :=
  match b with
  | ToolUseBlock i _ _ | ToolResultBlock i _ _ => i
  | _ => ""
  end.

Definition block_name (b : ContentBlock) : string :=
  match b with
  | ToolUseBlock _ n _ | ToolResultBlock _ n _ => n
  | _ => ""
  end.

Definition block_input (b : ContentBlock) : Json :=
  match b with
  | ToolUseBlock _ _ a => a
  | _ => JNone
  end.

(** Modelled from the spec: the message class is not among the sources.  A
    turn has a stable identity, a producer name and role, an ordered sequence
    of content blocks and optional metadata; a string content is the turn
    with that single text block. *)
Record Msg := mkMsg {
  msg_id : nat;
  msg_name : string;
  msg_content : list ContentBlock;
  msg_role : Role;
  msg_metadata : Json
}.

Definition get_content_blocks (ty : string) (m : Msg) : list ContentBlock :=
  List.filter (fun b => String.eqb (block_type b) ty) (msg_content m).

Definition has_content_blocks (ty : string) (m : Msg) : bool :=
  match get_content_blocks ty m with [] => false | _ :: _ => true end.

Definition set_metadata (md : Json) (m : Msg) : Msg :=
  mkMsg (msg_id m) (msg_name m) (msg_content m) (msg_role m) md.

Definition set_content (c : list ContentBlock) (m : Msg) : Msg :=
  mkMsg (msg_id m) (msg_name m) c (msg_role m) (msg_metadata m).

(** ** The conversation store *)

Inductive _MemoryMark := HINT | COMPRESSED.

Definition mark_eqb (a b : _MemoryMark) : bool :=
  match a, b with
  | HINT, HINT | COMPRESSED, COMPRESSED => true
  | _, _ => false
  end.

(** Modelled from the spec: the memory classes are not among the sources.
    The conversation log is an append-only sequence of turns, each carrying
    zero or one lifecycle mark, with reads that exclude a given mark; the
    summary written by compaction is kept beside the turns. *)
Record InMemoryMemory := mkMemory {
  mem_content : list (Msg * option _MemoryMark);
  _compressed_summary : string
}.

Module Memory.

Definition empty : InMemoryMemory := mkMemory [] "".

(** [add(msgs, marks=mark)]; [add(None)] is [add []]. *)
Definition add (msgs : list Msg) (mark : option _MemoryMark)
    (m : InMemoryMemory) : InMemoryMemory :=
  mkMemory (mem_content m ++ List.map (fun x => (x, mark)) msgs)
           (_compressed_summary m).

Definition has_mark (mk : _MemoryMark) (e : Msg * option _MemoryMark) : bool :=
  match snd e with
  | Some mk' => mark_eqb mk mk'
  | None => false
  end.

(** [get_memory(exclude_mark=...)]. *)
Definition get_memory (exclude_mark : option _MemoryMark)
    (m : InMemoryMemory) : list Msg :=
  List.map fst
    (List.filter
       (fun e => match exclude_mark with
                 | Some mk => negb (has_mark mk e)
                 | None => true
                 end)
       (mem_content m)).

Definition clear (m : InMemoryMemory) : InMemoryMemory :=
  mkMemory [] (_compressed_summary m).

Definition update_compressed_summary (s : string) (m : InMemoryMemory)
    : InMemoryMemory :=
  mkMemory (mem_content m) s.

Definition update_messages_mark (msg_ids : list nat) (new_mark : _MemoryMark)
    (m : InMemoryMemory) : InMemoryMemory :=
  mkMemory
    (List.map
       (fun e => if List.existsb (Nat.eqb (msg_id (fst e))) msg_ids
                 then (fst e, Some new_mark) else e)
       (mem_content m))
    (_compressed_summary m).

Definition ids (m : InMemoryMemory) : list nat :=
  List.map (fun e => msg_id (fst e)) (mem_content m).

(** The store holds the message objects themselves: assigning
    [msg.metadata] after [add(msg)] shows in the store. *)
Definition assign_metadata (i : nat) (md : Json) (m : InMemoryMemory)
    : InMemoryMemory :=
  mkMemory
    (List.map
       (fun e => if Nat.eqb (msg_id (fst e)) i
                 then (set_metadata md (fst e), snd e) else e)
       (mem_content m))
    (_compressed_summary m).

End Memory.

(** ** Selecting what compaction may summarise

    The loop of [_compress_memory_if_needed] that keeps the most recent
    units: it walks the indices [len - 1, ..., 0]. *)

(** The two inner loops over one message: record the identifiers of its
    tool results, then drop those answered by its tool requests. *)
Definition scan_msg (accumulated_tool_call_ids : gset string) (msg : Msg)
    : gset string :=
  let acc1 :=
    foldl (fun acc block => acc ∪ {[ block_id block ]})
          accumulated_tool_call_ids (get_content_blocks "tool_result" msg) in
  foldl (fun acc block =>
           if decide (block_id block ∈ acc) then acc ∖ {[ block_id block ]}
           else acc)
        acc1 (get_content_blocks "tool_use" msg).

(** [keep_loop keep_recent msgs n n_keep acc] runs the iterations
    [i = n - 1, ..., 0] and returns the final [to_compressed_msgs]:
    [msgs[:i]] at the [break], the whole list when the range is exhausted. *)
Fixpoint keep_loop (keep_recent : Z) (to_compressed_msgs : list Msg)
    (n : nat) (n_keep : Z) (accumulated_tool_call_ids : gset string)
    : list Msg :=
  match n with
  | O => to_compressed_msgs
  | S i =>
    match to_compressed_msgs !! i with
    | None => to_compressed_msgs
    | Some msg =>
      let acc := scan_msg accumulated_tool_call_ids msg in
      let n_keep' := if Nat.eqb (size acc) 0 then (n_keep + 1)%Z else n_keep in
      if (keep_recent <=? n_keep')%Z
      then take i to_compressed_msgs
      else keep_loop keep_recent to_compressed_msgs i n_keep' acc
    end
  end.

Definition compaction_candidate (keep_recent : Z) (view : list Msg) : list Msg :=
  keep_loop keep_recent view (length view) 0%Z ∅.

(** The values of [n_keep] after each iteration, most recent message first
    (the walk without the [break]). *)
Fixpoint n_keep_trace (view : list Msg) (n : nat) (n_keep : Z)
    (acc : gset string) : list Z :=
  match n with
  | O => []
  | S i =>
    match view !! i with
    | None => []
    | Some msg =>
      let acc' := scan_msg acc msg in
      let n_keep' := if Nat.eqb (size acc') 0 then (n_keep + 1)%Z else n_keep in
      n_keep' :: n_keep_trace view i n_keep' acc'
    end
  end.

(** The number of valid-boundary units of a view. *)
Definition count_units (view : list Msg) : Z :=
  List.last (n_keep_trace view (length view) 0%Z ∅) 0%Z.

(** The shapes of turns the boundary property speaks of. *)

Definition text_only (m : Msg) : bool :=
  List.forallb (fun b => String.eqb (block_type b) "text") (msg_content m).

(** [m] carries a tool request with identifier [i] and no tool result. *)
Definition requests (i : string) (m : Msg) : bool :=
  negb (has_content_blocks "tool_result" m)
  && List.existsb (fun b => String.eqb (block_id b) i)
                  (get_content_blocks "tool_use" m).

(** [m] carries a tool result, all its tool results have identifier [i], and
    it carries no tool request. *)
Definition answers (i : string) (m : Msg) : bool :=
  negb (has_content_blocks "tool_use" m)
  && has_content_blocks "tool_result" m
  && List.forallb (fun b => String.eqb (block_id b) i)
                  (get_content_blocks "tool_result" m).

(** The result turns synthesized for interrupted tool requests, with
    identities from [n] on. *)
Fixpoint interrupted_turns (n : nat) (tool_use_blocks : list ContentBlock)
    : list Msg :=
  match tool_use_blocks with
  | [] => []
  | tool_call :: rest =>
    mkMsg n "system"
          [ToolResultBlock (block_id tool_call) (block_name tool_call)
                           (inl "工具调用已被用户中断")]
          system JNone
    :: interrupted_turns (S n) rest
  end.

Definition unmarked (msgs : list Msg) : list (Msg * option _MemoryMark) :=
  List.map (fun m => (m, None)) msgs.

(** ** Collaborators' answers *)

Inductive Exn :=
| CancelledError
| OtherError (what : string).

Inductive Outcome (A : Type) :=
| Return (a : A)
| Raise (e : Exn).
Arguments Return {A} a.
Arguments Raise {A} e.

(** What consuming a lazy sequence gives: the items received, in order, and
    then either its normal end or an exception raised in place of the next
    item.  A payload returned at once is the sequence of that one item. *)
Record Stream (A : Type) := mkStream {
  received : list A;
  raised : option Exn
}.
Arguments mkStream {A} received raised.
Arguments received {A} s.
Arguments raised {A} s.

Inductive Awaited (A : Type) :=
| CallRaises (e : Exn)
| Responds (s : Stream A).
Arguments CallRaises {A} e.
Arguments Responds {A} s.

Record ChatResponse := mkChatResponse {
  resp_content : list ContentBlock;
  resp_metadata : Json
}.

Record ToolResponse := mkToolResponse {
  tr_content : list ContentBlock;
  tr_metadata : Json;
  is_last : bool;
  is_interrupted : bool
}.

Inductive ToolChoice := choice_auto | choice_none | choice_required.

(** The summarization call ended normally and its last chunk carries no
    structured metadata. *)
Definition no_structured_metadata (a : Awaited ChatResponse) : Prop :=
  ∃ s chunk, a = Responds s ∧ raised s = None
             ∧ last (received s) = Some chunk
             ∧ truthy (resp_metadata chunk) = false.

(** ** The agent *)

Section Agent.

(** The formatter's output type and the type of result schemas (pydantic
    model classes). *)
Context {Prompt Schema : Type}.

(** Modelled from the spec: the toolkit class is not among the sources.
    Tool registration and removal by name, and the schema bound to the
    finishing tool. *)
Record Toolkit := mkToolkit {
  tools : list string;
  extended_model : option (string * Schema)
}.

Record CompressionConfig := mkCompressionConfig {
  enable : bool;
  agent_token_counter : Prompt -> Z;
  trigger_threshold : Z;
  keep_recent : Z;
  compression_prompt : string;
  summary_template : string;
  summary_schema : Schema;
  compression_model :
    option (Prompt -> option Schema -> Awaited ChatResponse);
  compression_formatter : option (list Msg -> Prompt)
}.

(** The constructor's arguments. *)
Record Config := mkConfig {
  name : string;
  _sys_prompt : string;
  agent_skill_prompt : string;
  max_iters : nat;
  compression_config : option CompressionConfig;
  _static_control : bool;
  has_knowledge : bool
}.

(** The collaborators. *)
Record Env := mkEnv {
  (** [formatter.format] *)
  format : list Msg -> Prompt;
  (** [self.model(prompt, tools=..., tool_choice=..., structured_model=...)] *)
  model : Prompt -> option Toolkit -> option ToolChoice -> option Schema
          -> Awaited ChatResponse;
  (** the registered tool functions other than the finishing tool *)
  tool_functions : ContentBlock -> Awaited ToolResponse;
  (** [schema.model_validate(kwargs).model_dump()], or the text of the
      [ValidationError] *)
  model_validate : Schema -> Json -> string + Json;
  (** [template.format] applied to the entries of the metadata; [None]
      for a [KeyError] *)
  str_format : string -> Json -> option string;
  (** [plan_notebook.get_current_hint()], when a notebook is attached: the
      content of the guidance turn, if any *)
  plan_notebook : option (InMemoryMemory -> option (list ContentBlock));
  (** [long_term_memory.retrieve(msg)] *)
  long_term_memory_retrieve : list Msg -> string;
  (** the documents retrieved from the knowledge bases for the input (after
      the optional query rewriting), best score first *)
  knowledge_retrieve : list Msg -> list Msg -> list ContentBlock
}.

(** The agent's mutable attributes. *)
Record ReActAgent := mkAgent {
  memory : InMemoryMemory;
  _reasoning_hint_msgs : InMemoryMemory;
  _required_structured_model : option Schema;
  toolkit : Toolkit
}.

(** The agent together with the supply of message identities and the
    record of what the reasoning steps handed to the formatter for the
    model (oldest first). *)
Record World := mkWorld {
  self : ReActAgent;
  next_id : nat;
  reasoning_prompts : list (list Msg)
}.

Definition M (A : Type) : Type := World -> Outcome A * World.

Definition ret {A} (a : A) : M A := fun w => (Return a, w).

Definition bind {A B} (m : M A) (k : A -> M B) : M B :=
  fun w =>
    match m w with
    | (Return a, w') => k a w'
    | (Raise e, w') => (Raise e, w')
    end.

Definition raise {A} (e : Exn) : M A := fun w => (Raise e, w).

(** [try: body finally: fin].  The body leaves its local variables [l]
    and the way it ended; the [finally] block reads both, and an exception
    of its own replaces the body's. *)
Definition try_finally {L A} (body : World -> (L * Outcome A) * World)
    (fin : L -> Outcome A -> M unit) : M A :=
  fun w =>
    let '((l, r), w1) := body w in
    match fin l r w1 with
    | (Return _, w2) => (r, w2)
    | (Raise e, w2) => (Raise e, w2)
    end.

Definition modify (f : ReActAgent -> ReActAgent) : M unit :=
  fun w => (Return tt, mkWorld (f (self w)) (next_id w) (reasoning_prompts w)).

Definition get_self : M ReActAgent := fun w => (Return (self w), w).

(** [Msg(name, content, role, metadata=...)]: a new object, with an
    identity of its own. *)
Definition new_msg (nm : string) (c : list ContentBlock) (r : Role)
    (md : Json) : M Msg :=
  fun w => (Return (mkMsg (next_id w) nm c r md),
            mkWorld (self w) (S (next_id w)) (reasoning_prompts w)).

Definition record_prompt (msgs : list Msg) : M unit :=
  fun w => (Return tt,
            mkWorld (self w) (next_id w) (reasoning_prompts w ++ [msgs])).

Definition with_memory (f : InMemoryMemory -> InMemoryMemory)
    (a : ReActAgent) : ReActAgent :=
  mkAgent (f (memory a)) (_reasoning_hint_msgs a)
          (_required_structured_model a) (toolkit a).

Definition with_hints (f : InMemoryMemory -> InMemoryMemory)
    (a : ReActAgent) : ReActAgent :=
  mkAgent (memory a) (f (_reasoning_hint_msgs a))
          (_required_structured_model a) (toolkit a).

Definition with_required (s : option Schema) (a : ReActAgent) : ReActAgent :=
  mkAgent (memory a) (_reasoning_hint_msgs a) s (toolkit a).

Definition with_toolkit (f : Toolkit -> Toolkit) (a : ReActAgent)
    : ReActAgent :=
  mkAgent (memory a) (_reasoning_hint_msgs a)
          (_required_structured_model a) (f (toolkit a)).

(** [await self.memory.add(msg, marks=mark)] *)
Definition memory_add (msgs : list Msg) (mark : option _MemoryMark) : M unit :=
  modify (with_memory (Memory.add msgs mark)).

Definition await {A} (a : Awaited A) : M (Stream A) :=
  match a with
  | CallRaises e => raise e
  | Responds s => ret s
  end.

Variable cfg : Config.
Variable env : Env.

Definition finish_function_name : string := "generate_response".

Definition sys_prompt : string :=
  if String.eqb (agent_skill_prompt cfg) "" then _sys_prompt cfg
  else _sys_prompt cfg
       +:+ String "010"%char (String "010"%char "")
       +:+ agent_skill_prompt cfg.

#[global] Instance M_ret : MRet M := @ret.
#[global] Instance M_bind : MBind M := fun A B k m => bind m k.

(** *** Compaction *)

(** [compression_config.compression_model or self.model] *)
Definition summarizer (cc : CompressionConfig)
    : Prompt -> option Schema -> Awaited ChatResponse :=
  match compression_model cc with
  | Some f => f
  | None => fun p s => model env p None None s
  end.

Definition _compress_memory_if_needed : M unit :=
  match compression_config cfg with
  | None => ret tt
  | Some cc =>
    if negb (enable cc) then ret tt else
    a ← get_self;
    let view := Memory.get_memory (Some COMPRESSED) (memory a) in
    let to_compressed_msgs := compaction_candidate (keep_recent cc) view in
    match to_compressed_msgs with
    | [] => ret tt
    | _ :: _ =>
      sys ← new_msg "system" [TextBlock sys_prompt] system JNone;
      let prompt := format env (sys :: to_compressed_msgs) in
      let n_tokens := agent_token_counter cc prompt in
      if (trigger_threshold cc <? n_tokens)%Z then
        let compression_formatter' :=
          match compression_formatter cc with
          | Some f => f
          | None => format env
          end in
        sys' ← new_msg "system" [TextBlock sys_prompt] system JNone;
        instr ← new_msg "user" [TextBlock (compression_prompt cc)] user JNone;
        let compression_prompt' :=
          compression_formatter' (sys' :: to_compressed_msgs ++ [instr]) in
        res ← await (summarizer cc compression_prompt'
                                (Some (summary_schema cc)));
        match raised res with
        | Some e => raise e
        | None =>
          match last (received res) with
          | None => raise (OtherError "AttributeError")
          | Some last_chunk =>
            if truthy (resp_metadata last_chunk) then
              match str_format env (summary_template cc)
                               (resp_metadata last_chunk) with
              | None => raise (OtherError "KeyError")
              | Some summary =>
                modify (with_memory
                          (Memory.update_compressed_summary summary)) ;;
                modify (with_memory
                          (Memory.update_messages_mark
                             (List.map msg_id to_compressed_msgs)
                             COMPRESSED))
              end
            else ret tt
          end
        end
      else ret tt
    end
  end.

(** *** Completion protocol *)

Definition generate_response (self : ReActAgent) (kwargs : Json)
    : ToolResponse :=
  match _required_structured_model self with
  | Some schema =>
    match model_validate env schema kwargs with
    | inl e =>
      mkToolResponse
        [TextBlock ("参数验证错误: " +:+ e)]
        (JDict [("success", JBool false); ("structured_output", JDict [])])
        true false
    | inr structured_output =>
      mkToolResponse
        [TextBlock "成功生成响应"]
        (JDict [("success", JBool true);
                ("structured_output", structured_output)])
        true false
    end
  | None =>
    mkToolResponse
      [TextBlock "成功生成响应"]
      (JDict [("success", JBool true); ("structured_output", JNone)])
      true false
  end.

(** Modelled from the spec: the toolkit class is not among the sources.
    Invoking a tool request gives a lazy sequence of outcome chunks; the
    finishing tool, while registered, is the agent's [generate_response]
    applied to the request's arguments. *)
Definition call_tool_function (self : ReActAgent) (tool_call : ContentBlock)
    : Awaited ToolResponse :=
  if String.eqb (block_name tool_call) finish_function_name
     && List.existsb (String.eqb finish_function_name) (tools (toolkit self))
  then Responds (mkStream [generate_response self (block_input tool_call)]
                          None)
  else tool_functions env tool_call.

(** *** Tool invocation coordinator *)

(** The [async for chunk in tool_res] loop of [_acting]: the output of the
    result block after the loop, and how the loop ended. *)
Fixpoint consume_chunks (tool_call : ContentBlock)
    (chunks : list ToolResponse) (stop : option Exn)
    (output : string + list ContentBlock)
    : (string + list ContentBlock) * Outcome Json :=
  match chunks with
  | [] => (output,
           match stop with
           | Some e => Raise e
           | None => Return JNone
           end)
  | chunk :: rest =>
    let output' : string + list ContentBlock := inr (tr_content chunk) in
    if is_interrupted chunk then (output', Raise CancelledError)
    else if String.eqb (block_name tool_call) finish_function_name
            && truthy (tr_metadata chunk)
            && truthy (dict_get "success" (JBool false) (tr_metadata chunk))
    then (output',
          Return (dict_get "structured_output" JNone (tr_metadata chunk)))
    else consume_chunks tool_call rest stop output'
  end.

(** The [try] block of [_acting]: the output of the result block when the
    block is left, and how it is left. *)
Definition invoke (self : ReActAgent) (tool_call : ContentBlock)
    : (string + list ContentBlock) * Outcome Json :=
  match call_tool_function self tool_call with
  | Responds tool_res =>
    consume_chunks tool_call (received tool_res) (raised tool_res) (inr [])
  | CallRaises e => (inr [], Raise e)
  end.

Definition _acting (tool_call : ContentBlock) : M Json :=
  tool_res_msg ←
    new_msg "system"
      [ToolResultBlock (block_id tool_call) (block_name tool_call) (inr [])]
      system JNone;
  a ← get_self;
  try_finally
    (fun w => (invoke a tool_call, w))
    (fun output _ =>
       memory_add
         [set_content
            [ToolResultBlock (block_id tool_call) (block_name tool_call)
                             output]
            tool_res_msg]
         None).

(** [[await _ for _ in futures]]: the requests one at a time, in order. *)
Fixpoint acting_all (tool_calls : list ContentBlock) : M (list Json) :=
  match tool_calls with
  | [] => ret []
  | tool_call :: rest =>
    r ← _acting tool_call;
    rs ← acting_all rest;
    ret (r :: rs)
  end.

(** *** Reasoning step *)

(** The content of the assistant message after the chunks received. *)
Definition assembled (chunks : list ChatResponse) : list ContentBlock :=
  match last chunks with
  | Some chunk => resp_content chunk
  | None => []
  end.

(** The synthesized results of the [finally] block, one per tool request. *)
Fixpoint fake_tool_results (tool_use_blocks : list ContentBlock) : M unit :=
  match tool_use_blocks with
  | [] => ret tt
  | tool_call :: rest =>
    msg_res ←
      new_msg "system"
        [ToolResultBlock (block_id tool_call) (block_name tool_call)
                         (inl "工具调用已被用户中断")]
        system JNone;
    memory_add [msg_res] None ;;
    fake_tool_results rest
  end.

(** The [if self.plan_notebook:] block that opens [_reasoning]. *)
Definition insert_plan_hint : M unit :=
  match plan_notebook env with
  | Some get_current_hint =>
    a ← get_self;
    match get_current_hint (memory a) with
    | Some c =>
      hint_msg ← new_msg "user" c user JNone;
      memory_add [hint_msg] (Some HINT)
    | None => memory_add [] (Some HINT)
    end
  | None => ret tt
  end.

Definition _reasoning (tool_choice : option ToolChoice) : M Msg :=
  insert_plan_hint ;;
  sys ← new_msg "system" [TextBlock sys_prompt] system JNone;
  a ← get_self;
  let msgs :=
    sys :: Memory.get_memory None (memory a)
        ++ Memory.get_memory None (_reasoning_hint_msgs a) in
  let prompt := format env msgs in
  record_prompt msgs ;;
  modify (with_hints Memory.clear) ;;
  a ← get_self;
  res ← await (model env prompt (Some (toolkit a)) tool_choice None);
  msg ← new_msg (name cfg) [] assistant JNone;
  try_finally
    (fun w =>
       let msg := set_content (assembled (received res)) msg in
       ((msg,
         match raised res with
         | Some e => Raise e
         | None => Return msg
         end), w))
    (fun msg r =>
       let interrupted_by_user :=
         match r with
         | Raise CancelledError => true
         | _ => false
         end in
       memory_add [msg] None ;;
       if interrupted_by_user
       then fake_tool_results (get_content_blocks "tool_use" msg)
       else ret tt).

(** *** Fallback summary *)

Definition compression_enabled : bool :=
  match compression_config cfg with
  | Some cc => enable cc
  | None => false
  end.

Definition _summarizing : M Msg :=
  hint_msg ←
    new_msg "user"
      [TextBlock
         "你未能在最大迭代次数内生成响应。现在通过总结当前情况直接回复。"]
      user JNone;
  sys ← new_msg "system" [TextBlock sys_prompt] system JNone;
  a ← get_self;
  let prompt :=
    format env
      (sys :: Memory.get_memory
                (if compression_enabled then Some COMPRESSED else None)
                (memory a)
           ++ [hint_msg]) in
  res ← await (model env prompt None None None);
  res_msg ← new_msg (name cfg) [] assistant JNone;
  match raised res with
  | Some e => raise e
  | None => ret (set_content (assembled (received res)) res_msg)
  end.

(** *** Retrieval *)

Definition _retrieve_from_long_term_memory (msg : list Msg) : M unit :=
  if _static_control cfg && negb (Nat.eqb (length msg) 0) then
    let retrieved_info := long_term_memory_retrieve env msg in
    if negb (String.eqb retrieved_info "") then
      retrieved_msg ←
        new_msg "long_term_memory"
          [TextBlock
             ("<long_term_memory>以下内容从长期记忆中检索，可能有用:"
              +:+ String "010"%char retrieved_info
              +:+ "</long_term_memory>")]
          user JNone;
      memory_add [retrieved_msg] None
    else ret tt
  else ret tt.

(** The query is built from the input and optionally rewritten by the
    model from the uncompressed view; the oracle stands for both and for
    the ranking of the documents. *)
Definition _retrieve_from_knowledge (msg : list Msg) : M unit :=
  if has_knowledge cfg && negb (Nat.eqb (length msg) 0) then
    a ← get_self;
    let docs :=
      knowledge_retrieve env msg
        (Memory.get_memory
           (if compression_enabled then Some COMPRESSED else None)
           (memory a)) in
    match docs with
    | [] => ret tt
    | _ :: _ =>
      retrieved_msg ←
        new_msg "user"
          ([TextBlock
              ("<retrieved_knowledge>如果有帮助，请使用知识库中的以下内容:"
               +:+ String "010"%char "")]
           ++ docs ++ [TextBlock "</retrieved_knowledge>"])
          user JNone;
      memory_add [retrieved_msg] None
    end
  else ret tt.

(** *** The entry operation *)

(** How one pass through the body of the loop ends. *)
Inductive LoopExit :=
| Break (reply_msg : Msg) (structured_output : Json)
| Continue (tool_choice : option ToolChoice) (structured_output : Json).

(** The exit conditions, checked after reasoning and acting. *)
Definition check_exit (msg_reasoning : Msg) (structured_outputs : list Json)
    (tool_choice : option ToolChoice) (structured_output : Json)
    : M LoopExit :=
  a ← get_self;
  match _required_structured_model a with
  | Some _ =>
    let structured_outputs := List.filter truthy structured_outputs in
    match last structured_outputs with
    | Some structured_output' =>
      if has_content_blocks "text" msg_reasoning then
        reply_msg ←
          new_msg (name cfg) (get_content_blocks "text" msg_reasoning)
                  assistant structured_output';
        ret (Break reply_msg structured_output')
      else
        msg_hint ←
          new_msg "user"
            [TextBlock
               "<system-hint>现在根据当前情况生成文本响应</system-hint>"]
            user JNone;
        memory_add [msg_hint] (Some HINT) ;;
        modify (with_required None) ;;
        ret (Continue (Some choice_none) structured_output')
    | None =>
      if negb (has_content_blocks "tool_use" msg_reasoning) then
        msg_hint ←
          new_msg "user"
            [TextBlock
               ("<system-hint>需要结构化输出，继续完成任务或调用 '"
                +:+ finish_function_name
                +:+ "' 来生成所需的结构化输出。</system-hint>")]
            user JNone;
        modify (with_hints (Memory.add [msg_hint] None)) ;;
        ret (Continue (Some choice_required) structured_output)
      else ret (Continue tool_choice structured_output)
    end
  | None =>
    if negb (has_content_blocks "tool_use" msg_reasoning) then
      modify (with_memory
                (Memory.assign_metadata (msg_id msg_reasoning)
                                        structured_output)) ;;
      ret (Break (set_metadata structured_output msg_reasoning)
                 structured_output)
    else ret (Continue tool_choice structured_output)
  end.

(** The body of the loop.  Tool requests are run one at a time
    ([parallel_tool_calls] off). *)
Definition reply_iteration (tool_choice : option ToolChoice)
    (structured_output : Json) : M LoopExit :=
  msg_reasoning ← _reasoning tool_choice;
  structured_outputs ←
    acting_all (get_content_blocks "tool_use" msg_reasoning);
  check_exit msg_reasoning structured_outputs tool_choice structured_output.

(** [for _ in range(self.max_iters)]: the result is [reply_msg] and
    [structured_output] when the loop is left, by [break] or by
    exhaustion. *)
Fixpoint reply_loop (iters : nat) (tool_choice : option ToolChoice)
    (structured_output : Json) : M (option Msg * Json) :=
  match iters with
  | O => ret (None, structured_output)
  | S iters' =>
    x ← reply_iteration tool_choice structured_output;
    match x with
    | Break reply_msg structured_output' =>
      ret (Some reply_msg, structured_output')
    | Continue tool_choice' structured_output' =>
      reply_loop iters' tool_choice' structured_output'
    end
  end.

Definition register_finish (structured_model : Schema) (t : Toolkit)
    : Toolkit :=
  mkToolkit
    (if List.existsb (String.eqb finish_function_name) (tools t)
     then tools t else tools t ++ [finish_function_name])
    (Some (finish_function_name, structured_model)).

Definition remove_finish (t : Toolkit) : Toolkit :=
  mkToolkit
    (List.filter (fun n => negb (String.eqb n finish_function_name))
                 (tools t))
    (extended_model t).

(** What [reply] does before the loop; the result is [tool_choice]. *)
Definition reply_setup (msg : list Msg) (structured_model : option Schema)
    : M (option ToolChoice) :=
  memory_add msg None ;;
  _retrieve_from_long_term_memory msg ;;
  _retrieve_from_knowledge msg ;;
  modify (with_required structured_model) ;;
  match structured_model with
  | Some sm =>
    modify (with_toolkit (register_finish sm)) ;;
    ret (Some choice_required)
  | None =>
    modify (with_toolkit remove_finish) ;;
    ret None
  end.

(** The recording to long-term memory that ends [reply] under static
    control reads the log and leaves the agent as it is. *)
Definition reply (msg : list Msg) (structured_model : option Schema)
    : M Msg :=
  tool_choice ← reply_setup msg structured_model;
  '(reply_msg, structured_output) ← reply_loop (max_iters cfg) tool_choice JNone;
  match reply_msg with
  | Some reply_msg => ret reply_msg
  | None =>
    reply_msg ← _summarizing;
    let reply_msg := set_metadata structured_output reply_msg in
    memory_add [reply_msg] None ;;
    ret reply_msg
  end.

(** *** Names for the parts of a reasoning step *)

(** The world once the plan notebook's guidance is in place. *)
Definition after_plan_hint (w : World) : World :=
  snd (insert_plan_hint w).

(** What a reasoning step started in [w] hands to the formatter. *)
Definition reasoning_msgs (w : World) : list Msg :=
  let w1 := after_plan_hint w in
  mkMsg (next_id w1) "system" [TextBlock sys_prompt] system JNone
  :: Memory.get_memory None (memory (self w1))
  ++ Memory.get_memory None (_reasoning_hint_msgs (self w1)).

(** What the model answers to that step's call. *)
Definition model_answer (tool_choice : option ToolChoice) (w : World)
    : Awaited ChatResponse :=
  model env (format env (reasoning_msgs w))
        (Some (toolkit (self (after_plan_hint w)))) tool_choice None.

(** The assistant turn assembled from what was received. *)
Definition assistant_turn (w : World) (res : Stream ChatResponse) : Msg :=
  mkMsg (S (next_id (after_plan_hint w))) (name cfg)
        (assembled (received res)) assistant JNone.

(** The value [_acting] returns when it returns. *)
Definition returned (o : Outcome Json) : Json :=
  match o with
  | Return j => j
  | Raise _ => JNone
  end.

(** The result turns of the requests run one after the other, with
    identities from [n] on, when each invocation is that of [invoke a]. *)
Fixpoint result_turns (a : ReActAgent) (n : nat)
    (tool_calls : list ContentBlock) : list Msg :=
  match tool_calls with
  | [] => []
  | tool_call :: rest =>
    mkMsg n "system"
          [ToolResultBlock (block_id tool_call) (block_name tool_call)
                           (fst (invoke a tool_call))]
          system JNone
    :: result_turns a (S n) rest
  end.

(** The finishing tool is among the registered tools. *)
Definition finish_registered (a : ReActAgent) : bool :=
  List.existsb (String.eqb finish_function_name) (tools (toolkit a)).

(** A call of the finishing tool whose arguments the pending schema
    rejects with the error [e]. *)
Definition rejected (a : ReActAgent) (tool_call : ContentBlock)
    (e : string) : Prop :=
  block_name tool_call = finish_function_name
  ∧ ∃ schema, _required_structured_model a = Some schema
              ∧ model_validate env schema (block_input tool_call) = inl e.

(** A call of another tool that runs to its end. *)
Definition completes (a : ReActAgent) (tool_call : ContentBlock) : Prop :=
  block_name tool_call ≠ finish_function_name
  ∧ ∃ j, snd (invoke a tool_call) = Return j.

(** Every identity in the log is below the supply. *)
Definition ids_bounded (w : World) : Prop :=
  Forall (fun i => i < next_id w) (Memory.ids (memory (self w))).

(** [w'] comes from [w] by appending new turns to the log; the pending
    schema and the toolkit are the same. *)
Definition extends (w w' : World) : Prop :=
  _required_structured_model (self w') = _required_structured_model (self w)
  ∧ toolkit (self w') = toolkit (self w)
  ∧ next_id w ≤ next_id w'
  ∧ ∃ extra,
      mem_content (memory (self w')) = mem_content (memory (self w)) ++ extra
      ∧ Forall (fun e => next_id w ≤ msg_id (fst e) < next_id w') extra.

End Agent.

(** ** The rest of the agent's methods *)

(** The [long_term_memory_mode] argument of the constructor. *)
Inductive LongTermMemoryMode := agent_control | static_control | both.

(** [long_term_memory and long_term_memory_mode in ["static_control",
    "both"]], as a truth value. *)
Definition init_static_control (long_term_memory : bool)
    (long_term_memory_mode : LongTermMemoryMode) : bool :=
  long_term_memory
  && match long_term_memory_mode with
     | static_control | both => true
     | agent_control => false
     end.

(** [long_term_memory and long_term_memory_mode in ["agent_control",
    "both"]], as a truth value. *)
Definition init_agent_control (long_term_memory : bool)
    (long_term_memory_mode : LongTermMemoryMode) : bool :=
  long_term_memory
  && match long_term_memory_mode with
     | agent_control | both => true
     | static_control => false
     end.

Section Others.

Context {Prompt Schema : Type}.
Variable cfg : @Config Prompt Schema.

(** [observe]: the messages are recorded, no reply is made. *)
Definition observe (msg : list Msg) : @M Schema unit := memory_add msg None.

(** [handle_interrupt]: its two arguments are not read. *)
Definition handle_interrupt (msg : list Msg)
    (structured_model : option Schema) : @M Schema Msg :=
  response_msg ←
    new_msg (name cfg)
      [TextBlock "我注意到你打断了我。我能为你做什么？"]
      assistant (JDict [("_is_interrupted", JBool true)]);
  memory_add [response_msg] None ;;
  ret response_msg.

End Others.

(** ** The keep-recent loop, message by message

    The same walk as [keep_loop] on the messages in the order the loop meets
    them (most recent first). *)

(** The number of messages the loop has met when it breaks; [None] when it
    meets them all without breaking. *)
Fixpoint kept_count (keep_recent : Z) (met : list Msg) (n_keep : Z)
    (acc : gset string) : option nat :=
  match met with
  | [] => None
  | msg :: rest =>
    let acc' := scan_msg acc msg in
    let n_keep' := if Nat.eqb (size acc') 0 then (n_keep + 1)%Z else n_keep in
    if (keep_recent <=? n_keep')%Z then Some 1
    else S <$> kept_count keep_recent rest n_keep' acc'
  end.

(** The values of [n_keep] after each message met. *)
Fixpoint units_met (met : list Msg) (n_keep : Z) (acc : gset string)
    : list Z :=
  match met with
  | [] => []
  | msg :: rest =>
    let acc' := scan_msg acc msg in
    let n_keep' := if Nat.eqb (size acc') 0 then (n_keep + 1)%Z else n_keep in
    n_keep' :: units_met rest n_keep' acc'
  end.

(** What compaction retains of a view: the turns after the candidate. *)
Definition retained (keep_recent : Z) (view : list Msg) : list Msg :=
  drop (length (compaction_candidate keep_recent view)) view.

(** ** Concrete agents

    Small collaborators on which the methods can be run: the prompt is the
    list of messages itself, a schema is a list of required string fields. *)

Module Scenario.

(** A pydantic model whose fields are all required strings: validation
    keeps the declared fields, in order. *)
Fixpoint validate_fields (fields : list string) (kwargs : Json)
    : string + list (string * Json) :=
  match fields with
  | [] => inr []
  | f :: rest =>
    match dict_get f JNone kwargs with
    | JStr v =>
      match validate_fields rest kwargs with
      | inr l => inr ((f, JStr v) :: l)
      | inl e => inl e
      end
    | _ => inl (f +:+ ": Field required")
    end
  end.

Definition validate (fields : list string) (kwargs : Json) : string + Json :=
  match validate_fields fields kwargs with
  | inr l => inr (JDict l)
  | inl e => inl e
  end.

(** A model that answers every call with the given stream. *)
Definition scripted (s : Stream ChatResponse)
    : list Msg -> option (@Toolkit (list string)) -> option ToolChoice
      -> option (list string) -> Awaited ChatResponse :=
  fun _ _ _ _ => Responds s.

Definition says (content : list ContentBlock) : Stream ChatResponse :=
  mkStream [mkChatResponse content JNone] None.

Definition mk_env
    (model : list Msg -> option (@Toolkit (list string))
             -> option ToolChoice -> option (list string)
             -> Awaited ChatResponse)
    (plan : option (InMemoryMemory -> option (list ContentBlock)))
    : @Env (list Msg) (list string) :=
  mkEnv (fun msgs => msgs) model
        (fun _ => Responds (mkStream [mkToolResponse [TextBlock "ok"] JNone
                                                     true false] None))
        validate
        (fun _ _ => Some "summary of the earlier turns")
        plan
        (fun _ => "")
        (fun _ _ => []).

Definition mk_cfg (iters : nat)
    (cc : option (@CompressionConfig (list Msg) (list string)))
    : @Config (list Msg) (list string) :=
  mkConfig "Friday" "You are a helpful assistant." "" iters cc false false.

(** Compaction on, three recent units kept, a prompt of [n] messages
    costing [100 * n] tokens, threshold 50. *)
Definition compression : @CompressionConfig (list Msg) (list string) :=
  mkCompressionConfig true (fun p => (100 * Z.of_nat (length p))%Z) 50 3
    "Summarise the work so far." "{task_overview}"
    ["task_overview"] None None.

Definition text_msg (i : nat) (r : Role) (t : string) : Msg :=
  mkMsg i "user" [TextBlock t] r JNone.

Definition tA : Msg := text_msg 0 user "Find the weather in Paris.".
Definition tB : Msg :=
  mkMsg 1 "Friday" [ToolUseBlock "1" "weather" (JDict [("city", JStr "Paris")])]
        assistant JNone.
Definition tC : Msg :=
  mkMsg 2 "system" [ToolResultBlock "1" "weather" (inl "sunny")] system JNone.
Definition tD : Msg := text_msg 3 assistant "It is sunny in Paris.".
Definition tE : Msg := text_msg 4 user "And tomorrow?".
Definition tF : Msg := text_msg 5 assistant "Tomorrow it rains.".

Definition six_turns : list (Msg * option _MemoryMark) :=
  [(tA, None); (tB, None); (tC, None); (tD, None); (tE, None); (tF, None)].

Definition agent_with (log : list (Msg * option _MemoryMark))
    (pending : option (list string)) (registered : list string)
    : @ReActAgent (list string) :=
  mkAgent (mkMemory log "") Memory.empty pending
          (mkToolkit registered None).

Definition world_with (log : list (Msg * option _MemoryMark)) (n : nat)
    : @World (list string) :=
  mkWorld (agent_with log None []) n [].

(** The model's turn that calls the finishing tool with no argument, with
    and without a text block. *)
Definition finish_call : ContentBlock :=
  ToolUseBlock "call_1" "generate_response" (JDict []).

Definition finish_turn_with_text : list ContentBlock :=
  [TextBlock "Done."; finish_call].

(** A model whose stream is cut by the cancellation after a chunk with a
    text block and a tool request. *)
Definition cut_stream : Stream ChatResponse :=
  mkStream [mkChatResponse [TextBlock "Let me check"] JNone;
            mkChatResponse [TextBlock "Let me check the weather.";
                            ToolUseBlock "1" "weather" (JDict [])] JNone]
           (Some CancelledError).

(** The agent once [reply] has prepared the loop for the user's question
    and a schema. *)
Definition asked (fields : list string) : @World (list string) :=
  snd (reply_setup (mk_cfg 2 None) (mk_env (scripted (says [])) None)
                   [tA] (Some fields) (world_with [] 1)).

End Scenario.

(** ** More concrete agents *)

Module MoreScenario.

Import Scenario.

(** Compaction on, three recent units kept, every prompt costing 400
    tokens, with the threshold at that cost and below it. *)
Definition priced (threshold : Z)
    : @CompressionConfig (list Msg) (list string) :=
  mkCompressionConfig true (fun _ => 400%Z) threshold 3
    "Summarise the work so far." "{task_overview}"
    ["task_overview"] None None.

(** A summarizer's answer with the summary's field. *)
Definition summary_stream : Stream ChatResponse :=
  mkStream [mkChatResponse [] (JDict [("task_overview", JStr "weather")])]
           None.

(** A summarizer that streams nothing. *)
Definition empty_stream : Stream ChatResponse := mkStream [] None.

(** Tools by name: [weather] answers in one chunk, [search] is interrupted
    at its second chunk of three, [broken] raises when called. *)
Definition some_tools (tool_call : ContentBlock) : Awaited ToolResponse :=
  if String.eqb (block_name tool_call) "weather" then
    Responds (mkStream [mkToolResponse [TextBlock "sunny"] JNone true false]
                       None)
  else if String.eqb (block_name tool_call) "search" then
    Responds
      (mkStream [mkToolResponse [TextBlock "1 hit"] JNone false false;
                 mkToolResponse [TextBlock "2 hits"] JNone false true;
                 mkToolResponse [TextBlock "3 hits"] JNone true false]
                None)
  else CallRaises (OtherError "boom").

Definition with_tools (tf : ContentBlock -> Awaited ToolResponse)
    (e : @Env (list Msg) (list string)) : @Env (list Msg) (list string) :=
  mkEnv (format e) (model e) tf (model_validate e) (str_format e)
        (plan_notebook e) (long_term_memory_retrieve e) (knowledge_retrieve e).

Definition tools_env : @Env (list Msg) (list string) :=
  with_tools some_tools (mk_env (scripted (says [])) None).

Definition call (id name : string) : ContentBlock :=
  ToolUseBlock id name (JDict []).

(** A world whose hint store holds one pending hint. *)
Definition hinted : @World (list string) :=
  mkWorld
    (mkAgent (mkMemory [(tA, None)] "")
             (mkMemory [(text_msg 1 user "Be brief.", None)] "")
             None (mkToolkit [] None))
    2 [].

(** A stream that fails after one chunk with a tool request. *)
Definition failing_stream : Stream ChatResponse :=
  mkStream [mkChatResponse [TextBlock "Let me check";
                            ToolUseBlock "1" "weather" (JDict [])] JNone]
           (Some (OtherError "connection reset")).

(** The finishing call with the field [answer]. *)
Definition answer_call : ContentBlock :=
  ToolUseBlock "call_1" "generate_response" (JDict [("answer", JStr "42")]).

End MoreScenario.

(** * Properties *)

(** ** The candidate range of compaction *)

Section Candidate.

Implicit Types (acc : gset string) (m : Msg) (id : string) (i : nat).

Lemma text_only_no_blocks m ty :
  text_only m = true -> ty ≠ "text" -> get_content_blocks ty m = [].
Proof.
  unfold text_only, get_content_blocks.
  induction (msg_content m) as [|b l IH];
    cbn [List.filter List.forallb]; [done|].
  intros [Hb Hl]%andb_prop Hty.
  apply String.eqb_eq in Hb. rewrite Hb.
  destruct (String.eqb_spec "text" ty) as [Heq|_]; [congruence|].
  by apply IH.
Qed.

Lemma scan_msg_text_only acc m : text_only m = true -> scan_msg acc m = acc.
Proof.
  intros H. unfold scan_msg.
  by rewrite !(text_only_no_blocks m) by done.
Qed.

Lemma no_blocks m ty : has_content_blocks ty m = false -> get_content_blocks ty m = [].
Proof. unfold has_content_blocks. by destruct (get_content_blocks ty m). Qed.

Lemma add_results_same id (l : list ContentBlock) acc :
  List.forallb (fun b => String.eqb (block_id b) id) l = true ->
  l ≠ [] ->
  foldl (fun acc block => acc ∪ {[ block_id block ]}) acc l = acc ∪ {[ id ]}.
Proof.
  revert acc. induction l as [|b l IH]; intros acc; simpl; [done|].
  intros [Hb Hl]%andb_prop _. apply String.eqb_eq in Hb. rewrite Hb.
  destruct l as [|b' l']; [done|].
  rewrite IH by done. set_solver.
Qed.

Lemma drop_requests_empty (l : list ContentBlock) :
  foldl (fun acc block =>
           if decide (block_id block ∈ acc) then acc ∖ {[ block_id block ]}
           else acc) (∅ : gset string) l = ∅.
Proof.
  induction l as [|b l IH]; simpl; [done|].
  rewrite decide_False by set_solver. done.
Qed.

Lemma drop_requests_single id (l : list ContentBlock) :
  List.existsb (fun b => String.eqb (block_id b) id) l = true ->
  foldl (fun acc block =>
           if decide (block_id block ∈ acc) then acc ∖ {[ block_id block ]}
           else acc) ({[ id ]} : gset string) l = ∅.
Proof.
  induction l as [|b l IH]; simpl; [done|].
  destruct (String.eqb_spec (block_id b) id) as [->|Hne]; simpl.
  - intros _. rewrite decide_True by set_solver.
    replace ({[id]} ∖ {[id]} : gset string) with (∅ : gset string) by set_solver.
    apply drop_requests_empty.
  - intros H. rewrite decide_False by set_solver. by apply IH.
Qed.

Lemma scan_msg_answers id m : answers id m = true -> scan_msg ∅ m = {[ id ]}.
Proof.
  unfold answers. intros [[Hu Hr]%andb_prop Hall]%andb_prop.
  apply negb_true_iff, no_blocks in Hu.
  unfold scan_msg. rewrite Hu. simpl.
  rewrite (add_results_same id) by
    (try done; unfold has_content_blocks in Hr;
     by destruct (get_content_blocks "tool_result" m)).
  set_solver.
Qed.

Lemma scan_msg_requests id m : requests id m = true -> scan_msg {[ id ]} m = ∅.
Proof.
  unfold requests. intros [Hr Hu]%andb_prop.
  apply negb_true_iff, no_blocks in Hr.
  unfold scan_msg. rewrite Hr. simpl. by apply drop_requests_single.
Qed.

(** When no iteration reaches [keep_recent], the loop never breaks and
    [to_compressed_msgs] stays the whole view. *)
Lemma keep_loop_exhausted keep_recent (view : list Msg) n n_keep acc :
  Forall (fun k => (k < keep_recent)%Z) (n_keep_trace view n n_keep acc) ->
  keep_loop keep_recent view n n_keep acc = view.
Proof.
  revert n_keep acc. induction n as [|i IH]; intros n_keep acc; simpl; [done|].
  destruct (view !! i) as [msg|]; [|done].
  intros [Hlt Hrest]%Forall_cons.
  destruct (Z.leb_spec keep_recent
              (if Nat.eqb (size (scan_msg acc msg)) 0
               then (n_keep + 1)%Z else n_keep)) as [Hle|_]; [lia|].
  by apply IH.
Qed.

Lemma candidate_whole_view keep_recent (view : list Msg) :
  Forall (fun k => (k < keep_recent)%Z)
         (n_keep_trace view (length view) 0%Z ∅) ->
  compaction_candidate keep_recent view = view.
Proof. apply keep_loop_exhausted. Qed.

(** One iteration, when the message closes a unit and when it leaves a
    pair open. *)
Lemma keep_loop_closed keep_recent (view : list Msg) i n_keep acc m :
  view !! i = Some m -> scan_msg acc m = ∅ ->
  keep_loop keep_recent view (S i) n_keep acc =
  if (keep_recent <=? n_keep + 1)%Z then take i view
  else keep_loop keep_recent view i (n_keep + 1)%Z ∅.
Proof. intros Hm Hs. cbn [keep_loop]. by rewrite Hm, Hs, size_empty. Qed.

Lemma keep_loop_open keep_recent (view : list Msg) i n_keep acc m :
  view !! i = Some m -> scan_msg acc m ≠ ∅ ->
  keep_loop keep_recent view (S i) n_keep acc =
  if (keep_recent <=? n_keep)%Z then take i view
  else keep_loop keep_recent view i n_keep (scan_msg acc m).
Proof.
  intros Hm Hs. cbn [keep_loop]. rewrite Hm. cbv zeta.
  destruct (Nat.eqb_spec (size (scan_msg acc m)) 0) as [H0|_]; [|done].
  by apply size_empty_inv, leibniz_equiv in H0.
Qed.

Lemma n_keep_trace_closed (view : list Msg) i n_keep acc m :
  view !! i = Some m -> scan_msg acc m = ∅ ->
  n_keep_trace view (S i) n_keep acc =
  (n_keep + 1)%Z :: n_keep_trace view i (n_keep + 1)%Z ∅.
Proof. intros Hm Hs. cbn [n_keep_trace]. by rewrite Hm, Hs, size_empty. Qed.

Lemma n_keep_trace_open (view : list Msg) i n_keep acc m :
  view !! i = Some m -> scan_msg acc m ≠ ∅ ->
  n_keep_trace view (S i) n_keep acc =
  n_keep :: n_keep_trace view i n_keep (scan_msg acc m).
Proof.
  intros Hm Hs. cbn [n_keep_trace]. rewrite Hm. cbv zeta.
  destruct (Nat.eqb_spec (size (scan_msg acc m)) 0) as [H0|_]; [|done].
  by apply size_empty_inv, leibniz_equiv in H0.
Qed.

(** C1. For the log [A; B; C; D] with A and D text only, B carrying the
    tool request [i] and C the matching tool result, and [keep_recent = 2],
    the candidate range is exactly [A]: walking backwards the count of
    retained units is 1 after D, still 1 after C (the pair is open), 2 after
    B; so the candidate is not [A; B]. *)
Theorem C1_candidate_keeps_pair_together (A B C D : Msg) (i : string) :
  text_only A = true ->
  requests i B = true ->
  answers i C = true ->
  text_only D = true ->
  compaction_candidate 2 [A; B; C; D] = [A]
  ∧ n_keep_trace [A; B; C; D] 4 0 ∅ = [1; 1; 2; 3]%Z
  ∧ compaction_candidate 2 [A; B; C; D] ≠ [A; B].
Proof.
  intros HA HB HC HD.
  pose proof (scan_msg_text_only ∅ D HD) as HsD.
  pose proof (scan_msg_answers i C HC) as HsC.
  pose proof (scan_msg_requests i B HB) as HsB.
  pose proof (scan_msg_text_only ∅ A HA) as HsA.
  assert (Hopen : scan_msg ∅ C ≠ ∅) by (rewrite HsC; set_solver).
  assert (Hcand : compaction_candidate 2 [A; B; C; D] = [A]).
  { unfold compaction_candidate.
    change (length [A; B; C; D]) with 4.
    rewrite (keep_loop_closed 2 _ 3 0 ∅ D) by done.
    change (2 <=? 0 + 1)%Z with false. cbv iota.
    rewrite (keep_loop_open 2 _ 2 _ ∅ C) by done.
    change (2 <=? 0 + 1)%Z with false. cbv iota. rewrite HsC.
    rewrite (keep_loop_closed 2 _ 1 _ {[i]} B) by done.
    reflexivity. }
  split; [exact Hcand|]. split.
  - rewrite (n_keep_trace_closed _ 3 0 ∅ D) by done.
    rewrite (n_keep_trace_open _ 2 _ ∅ C) by done. rewrite HsC.
    rewrite (n_keep_trace_closed _ 1 _ {[i]} B) by done.
    rewrite (n_keep_trace_closed _ 0 _ ∅ A) by done.
    reflexivity.
  - rewrite Hcand. discriminate.
Qed.

End Candidate.

(** ** Running the agent's methods *)

Section Run.

Context {Prompt Schema : Type}.
Local Abbreviation M := (@M Schema).
Local Abbreviation World := (@World Schema).

Lemma run_bind {A B} (m : M A) (k : A -> M B) (w : World) :
  (m ≫= k) w =
  match m w with
  | (Return a, w') => k a w'
  | (Raise e, w') => (Raise e, w')
  end.
Proof. reflexivity. Qed.

Lemma run_ret {A} (a : A) (w : World) : ret a w = (Return a, w).
Proof. reflexivity. Qed.

Lemma run_raise {A} (e : Exn) (w : World) : raise (A:=A) e w = (Raise e, w).
Proof. reflexivity. Qed.

Lemma run_get_self (w : World) : get_self w = (Return (self w), w).
Proof. reflexivity. Qed.

Lemma run_modify f (w : World) :
  modify f w = (Return tt, mkWorld (f (self w)) (next_id w) (reasoning_prompts w)).
Proof. reflexivity. Qed.

Lemma run_new_msg nm c r md (w : World) :
  new_msg nm c r md w =
  (Return (mkMsg (next_id w) nm c r md),
   mkWorld (self w) (S (next_id w)) (reasoning_prompts w)).
Proof. reflexivity. Qed.

Lemma run_memory_add msgs mark (w : World) :
  memory_add msgs mark w =
  (Return tt,
   mkWorld (with_memory (Memory.add msgs mark) (self w)) (next_id w)
           (reasoning_prompts w)).
Proof. reflexivity. Qed.

Lemma run_record_prompt msgs (w : World) :
  record_prompt msgs w =
  (Return tt, mkWorld (self w) (next_id w) (reasoning_prompts w ++ [msgs])).
Proof. reflexivity. Qed.

Lemma run_await_responds {A} (s : Stream A) (w : World) :
  await (Responds s) w = (Return s, w).
Proof. reflexivity. Qed.

Lemma run_await_raises {A} (e : Exn) (w : World) :
  await (CallRaises (A:=A) e) w = (Raise e, w).
Proof. reflexivity. Qed.

End Run.

Create Rewrite HintDb run.
#[global] Hint Rewrite @run_bind @run_ret @run_raise @run_get_self @run_modify
  @run_new_msg @run_memory_add @run_record_prompt @run_await_responds
  @run_await_raises : run.

Ltac run := repeat (autorewrite with run; cbn [self next_id reasoning_prompts fst snd]).

(** ** Compaction without a summary *)

Section Compaction.

Context {Prompt Schema : Type}.
Variable cfg : @Config Prompt Schema.
Variable env : @Env Prompt Schema.

(** C9. When the summarization call returns no structured metadata, the
    engine ends normally and the agent is as before: no summary is stored
    and no turn is marked. *)
Theorem C9_failed_summary_changes_nothing (w : World) :
  (∀ cc p, compression_config cfg = Some cc ->
           no_structured_metadata
             (summarizer env cc p (Some (summary_schema cc)))) ->
  ∃ w', _compress_memory_if_needed cfg env w = (Return tt, w')
        ∧ self w' = self w.
Proof.
  intros Hfail. unfold _compress_memory_if_needed.
  destruct (compression_config cfg) as [cc|] eqn:Hcc; [|by eexists].
  destruct (enable cc); cbn [negb]; [|by eexists].
  run.
  destruct (compaction_candidate _ _) as [|m0 ms]; [by eexists|].
  run.
  destruct (_ <? _)%Z; [|by eexists].
  run.
  match goal with
  | |- context [summarizer env cc ?p ?s] =>
    destruct (Hfail cc p eq_refl) as (s' & chunk & -> & Hr & Hl & Ht)
  end.
  run. rewrite Hr, Hl, Ht. by eexists.
Qed.

End Compaction.

(** ** Reasoning and acting *)

Lemma length_interrupted_turns n blocks :
  length (interrupted_turns n blocks) = length blocks.
Proof. revert n. induction blocks; intros n; cbn; by rewrite ?IHblocks. Qed.

Section Steps.

Context {Prompt Schema : Type}.
Variable cfg : @Config Prompt Schema.
Variable env : @Env Prompt Schema.
Local Abbreviation World := (@World Schema).

Lemma insert_plan_hint_run (w : World) :
  insert_plan_hint env w = (Return tt, after_plan_hint env w).
Proof.
  unfold after_plan_hint, insert_plan_hint.
  destruct (plan_notebook env) as [get_current_hint|]; [|done].
  run. destruct (get_current_hint _); by run.
Qed.

Lemma after_plan_hint_frame (w : World) :
  _reasoning_hint_msgs (self (after_plan_hint env w)) = _reasoning_hint_msgs (self w)
  ∧ _required_structured_model (self (after_plan_hint env w))
    = _required_structured_model (self w)
  ∧ toolkit (self (after_plan_hint env w)) = toolkit (self w)
  ∧ reasoning_prompts (after_plan_hint env w) = reasoning_prompts w.
Proof.
  unfold after_plan_hint, insert_plan_hint.
  destruct (plan_notebook env) as [get_current_hint|]; [|done].
  run. destruct (get_current_hint _); by run.
Qed.

Lemma fake_tool_results_run (blocks : list ContentBlock) (w : World) :
  fake_tool_results blocks w =
  (Return tt,
   mkWorld
     (with_memory
        (fun m => mkMemory
                    (mem_content m
                     ++ unmarked (interrupted_turns (next_id w) blocks))
                    (_compressed_summary m))
        (self w))
     (length blocks + next_id w) (reasoning_prompts w)).
Proof.
  revert w. induction blocks as [|b l IH]; intros [[[mc ms] h r t] n ps].
  - cbn [fake_tool_results]. run. unfold with_memory, unmarked. cbn.
    by rewrite app_nil_r.
  - cbn [fake_tool_results]. run. rewrite IH.
    unfold with_memory, unmarked, Memory.add. cbn.
    by rewrite <- app_assoc, Nat.add_succ_r.
Qed.

(** The whole of a reasoning step, by what the model answers. *)
Lemma _reasoning_run (tool_choice : option ToolChoice) (w : World) :
  let w1 := after_plan_hint env w in
  let cleared :=
    mkWorld (with_hints Memory.clear (self w1)) (S (next_id w1))
            (reasoning_prompts w1 ++ [reasoning_msgs cfg env w]) in
  let logged msg extra :=
    mkWorld
      (with_memory
         (fun m => mkMemory (mem_content m ++ (msg, None) :: unmarked extra)
                            (_compressed_summary m))
         (self cleared))
      (length extra + S (S (next_id w1)))
      (reasoning_prompts cleared) in
  _reasoning cfg env tool_choice w =
  match model_answer cfg env tool_choice w with
  | CallRaises e => (Raise e, cleared)
  | Responds res =>
    let msg := assistant_turn cfg env w res in
    match raised res with
    | None => (Return msg, logged msg [])
    | Some CancelledError =>
      (Raise CancelledError,
       logged msg (interrupted_turns (S (S (next_id w1)))
                                     (get_content_blocks "tool_use" msg)))
    | Some e => (Raise e, logged msg [])
    end
  end.
Proof.
  cbv zeta. unfold _reasoning, model_answer, reasoning_msgs.
  rewrite run_bind, insert_plan_hint_run.
  set (w1 := after_plan_hint env w). run.
  destruct (model env _ _ _ _) as [e|res]; run; [done|].
  unfold try_finally, assistant_turn. fold w1.
  destruct (raised res) as [[|what]|]; run; cbn [set_content msg_id msg_name
    msg_role msg_metadata]; rewrite ?fake_tool_results_run; cbn;
    try done.
  unfold with_memory, with_hints, Memory.add, unmarked. cbn.
  by rewrite length_interrupted_turns, <- app_assoc.
Qed.

(** What a reasoning step records as handed to the formatter. *)
Lemma _reasoning_prompt (tool_choice : option ToolChoice) (w : World) :
  reasoning_prompts (snd (_reasoning cfg env tool_choice w)) =
  reasoning_prompts w ++ [reasoning_msgs cfg env w].
Proof.
  pose proof (_reasoning_run tool_choice w) as H. cbv zeta in H. rewrite H.
  destruct (after_plan_hint_frame w) as (_ & _ & _ & <-).
  destruct (model_answer _ _ _ _) as [e|res]; [done|].
  by destruct (raised res) as [[|what]|].
Qed.

(** The hint store is empty when a reasoning step is over, however it
    ends. *)
Lemma hint_store_drained (tool_choice : option ToolChoice) (w : World) :
  mem_content
    (_reasoning_hint_msgs (self (snd (_reasoning cfg env tool_choice w))))
  = [].
Proof.
  pose proof (_reasoning_run tool_choice w) as H. cbv zeta in H. rewrite H.
  destruct (model_answer _ _ _ _) as [e|res]; [done|].
  by destruct (raised res) as [[|what]|].
Qed.

(** The whole of one tool invocation. *)
Lemma _acting_run (tool_call : ContentBlock) (w : World) :
  _acting env tool_call w =
  (snd (invoke env (self w) tool_call),
   mkWorld
     (with_memory
        (Memory.add
           [mkMsg (next_id w) "system"
                  [ToolResultBlock (block_id tool_call)
                     (block_name tool_call)
                     (fst (invoke env (self w) tool_call))]
                  system JNone]
           None)
        (self w))
     (S (next_id w)) (reasoning_prompts w)).
Proof.
  unfold _acting. run. unfold try_finally.
  destruct (invoke env (self w) tool_call) as [output r]. by run.
Qed.

(** C5. Whatever the invocation of a tool request does (its chunks end
    normally, the call or the stream raises, or a chunk reports an
    interruption), the log grows by exactly one turn: a system turn whose
    single block is the tool result carrying the request's identifier and
    name. *)
Theorem C5_one_result_turn_per_request (tool_call : ContentBlock)
    (w : World) :
  ∃ r w' output,
    _acting env tool_call w = (r, w')
    ∧ mem_content (memory (self w')) =
      mem_content (memory (self w))
      ++ [(mkMsg (next_id w) "system"
                 [ToolResultBlock (block_id tool_call)
                                  (block_name tool_call) output]
                 system JNone, None)]
    ∧ _reasoning_hint_msgs (self w') = _reasoning_hint_msgs (self w).
Proof.
  rewrite _acting_run. by eexists _, _, _.
Qed.

(** C6, as the code has it. When the cancellation arrives while the
    model's answer is consumed (the call itself has returned), the step
    raises the cancellation, and the log has grown by the assistant turn
    with the content received so far, once, followed by one interrupted
    result turn for each tool request of that turn, in order. *)
Theorem C6_cancelled_while_consuming (tool_choice : option ToolChoice)
    (w : World) (res : Stream ChatResponse) :
  model_answer cfg env tool_choice w = Responds res ->
  raised res = Some CancelledError ->
  ∃ w',
    _reasoning cfg env tool_choice w = (Raise CancelledError, w')
    ∧ mem_content (memory (self w')) =
      mem_content (memory (self (after_plan_hint env w)))
      ++ (assistant_turn cfg env w res, None)
         :: unmarked
              (interrupted_turns
                 (S (S (next_id (after_plan_hint env w))))
                 (get_content_blocks "tool_use"
                    (assistant_turn cfg env w res))).
Proof.
  intros Hans Hres.
  pose proof (_reasoning_run tool_choice w) as H. cbv zeta in H.
  rewrite H, Hans, Hres. by eexists.
Qed.

(** When the cancellation arrives while the model call is awaited, the
    step raises it and the log holds what it held once the plan hint was
    in place: no assistant turn is appended. *)
Lemma cancelled_while_calling (tool_choice : option ToolChoice) (w : World) :
  model_answer cfg env tool_choice w = CallRaises CancelledError ->
  ∃ w',
    _reasoning cfg env tool_choice w = (Raise CancelledError, w')
    ∧ memory (self w') = memory (self (after_plan_hint env w)).
Proof.
  intros Hans.
  pose proof (_reasoning_run tool_choice w) as H. cbv zeta in H.
  rewrite H, Hans. by eexists.
Qed.

End Steps.

(** ** The loop *)

Section Loop.

Context {Prompt Schema : Type}.
Variable cfg : @Config Prompt Schema.
Variable env : @Env Prompt Schema.
Local Abbreviation World := (@World Schema).

Lemma extends_refl (w : World) : extends w w.
Proof.
  repeat split; [lia|]. exists []. by rewrite app_nil_r.
Qed.

Lemma extends_trans (w1 w2 w3 : World) :
  extends w1 w2 -> extends w2 w3 -> extends w1 w3.
Proof.
  intros (Hr1 & Ht1 & Hn1 & x1 & Hm1 & Hx1) (Hr2 & Ht2 & Hn2 & x2 & Hm2 & Hx2).
  repeat split; [congruence|congruence|lia|].
  exists (x1 ++ x2). split; [by rewrite Hm2, Hm1, app_assoc|].
  apply Forall_app. split; (eapply Forall_impl; [eassumption|]);
    cbn; intros; lia.
Qed.

Lemma extends_ids_bounded (w w' : World) :
  extends w w' -> ids_bounded w -> ids_bounded w'.
Proof.
  intros (_ & _ & Hn & x & Hm & Hx) Hb. unfold ids_bounded, Memory.ids in *.
  rewrite Hm, map_app. apply Forall_app. split.
  - eapply Forall_impl; [exact Hb|]. cbn. intros; lia.
  - apply Forall_map. eapply Forall_impl; [exact Hx|]. cbn. intros; lia.
Qed.

Lemma after_plan_hint_extends (w : World) : extends w (after_plan_hint env w).
Proof.
  unfold after_plan_hint, insert_plan_hint.
  destruct (plan_notebook env) as [get_current_hint|];
    [|apply extends_refl].
  run. destruct (get_current_hint _) as [c|]; run.
  - repeat split; cbn; [lia|]. eexists [_]. split; [done|].
    repeat constructor; cbn; lia.
  - repeat split; cbn; [lia|]. by exists [].
Qed.

Lemma interrupted_turns_ids n blocks :
  Forall (fun m => n ≤ msg_id m < length blocks + n)
         (interrupted_turns n blocks).
Proof.
  revert n. induction blocks as [|b l IH]; intros n; cbn; [done|].
  constructor; cbn; [lia|].
  eapply Forall_impl; [apply IH|]. cbn. intros; lia.
Qed.

Lemma _reasoning_extends tool_choice (w : World) :
  extends w (snd (_reasoning cfg env tool_choice w)).
Proof.
  eapply extends_trans; [apply after_plan_hint_extends|].
  pose proof (_reasoning_run cfg env tool_choice w) as H. cbv zeta in H.
  rewrite H. clear H. set (w1 := after_plan_hint env w).
  destruct (model_answer _ _ _ _) as [e|res]; cbn.
  { repeat split; cbn; [lia|]. exists []. by rewrite app_nil_r. }
  assert (Hgen : ∀ out extra,
    Forall (fun m => S (S (next_id w1)) ≤ msg_id m
                     < length extra + S (S (next_id w1))) extra ->
    extends w1
      (snd (out : Outcome Msg,
            mkWorld
              (with_memory
                 (fun m => mkMemory
                    (mem_content m
                     ++ (assistant_turn cfg env w res, None) :: unmarked extra)
                    (_compressed_summary m))
                 (with_hints Memory.clear (self w1)))
              (length extra + S (S (next_id w1)))
              (reasoning_prompts w1 ++ [reasoning_msgs cfg env w])))).
  { intros out extra Hex. repeat split; cbn; [lia|].
    eexists. split; [done|]. constructor.
    - cbn. fold w1. lia.
    - unfold unmarked. apply Forall_map.
      eapply Forall_impl; [exact Hex|]. cbn. intros; lia. }
  destruct (raised res) as [[|what]|].
  - apply (Hgen (Raise CancelledError)).
    pose proof (interrupted_turns_ids (S (S (next_id w1)))
      (get_content_blocks "tool_use" (assistant_turn cfg env w res))) as Hi.
    by rewrite length_interrupted_turns.
  - by apply (Hgen (Raise (OtherError what)) []).
  - by apply (Hgen (Return (assistant_turn cfg env w res)) []).
Qed.

Lemma _acting_extends tool_call (w : World) :
  extends w (snd (_acting env tool_call w)).
Proof.
  rewrite _acting_run. repeat split; cbn; [lia|].
  eexists [_]. split; [done|]. repeat constructor; cbn; lia.
Qed.

Lemma acting_all_extends tool_calls (w : World) :
  extends w (snd (acting_all env tool_calls w)).
Proof.
  revert w. induction tool_calls as [|b l IH]; intros w;
    cbn [acting_all]; run; [apply extends_refl|].
  pose proof (_acting_extends b w) as H1.
  destruct (_acting env b w) as [[j|e] w1]; [|exact H1].
  run. pose proof (IH w1) as H2. cbn in H1.
  destruct (acting_all env l w1) as [[js|e] w2]; run;
    eapply extends_trans; eauto.
Qed.

Lemma invoke_frame (a a' : ReActAgent) tool_call :
  _required_structured_model a' = _required_structured_model a ->
  toolkit a' = toolkit a ->
  invoke env a' tool_call = invoke env a tool_call.
Proof.
  intros Hr Ht. unfold invoke, call_tool_function, generate_response.
  by rewrite Hr, Ht.
Qed.

Lemma result_turns_frame (a a' : ReActAgent) n tool_calls :
  _required_structured_model a' = _required_structured_model a ->
  toolkit a' = toolkit a ->
  result_turns env a' n tool_calls = result_turns env a n tool_calls.
Proof.
  intros Hr Ht. revert n.
  induction tool_calls as [|b l IH]; intros n; cbn; [done|].
  by rewrite IH, (invoke_frame a a').
Qed.

Lemma invoke_rejected (a : ReActAgent) tool_call e :
  finish_registered a = true ->
  rejected env a tool_call e ->
  invoke env a tool_call
  = (inr [TextBlock ("参数验证错误: " +:+ e)], Return JNone).
Proof.
  intros Hreg (Hname & schema & Hs & Hv).
  unfold invoke, call_tool_function, generate_response.
  unfold finish_registered in Hreg.
  rewrite Hname, String.eqb_refl, Hreg, Hs, Hv. cbn [andb received raised].
  cbn [consume_chunks is_interrupted tr_metadata tr_content].
  rewrite Hname, String.eqb_refl. reflexivity.
Qed.

Lemma consume_chunks_other tool_call chunks stop output :
  block_name tool_call ≠ finish_function_name ->
  ∀ j, snd (consume_chunks tool_call chunks stop output) = Return j ->
       j = JNone.
Proof.
  intros Hne%String.eqb_neq. revert output.
  induction chunks as [|c l IH]; intros output j; cbn [consume_chunks].
  - destruct stop; cbn; congruence.
  - destruct (is_interrupted c); [cbn; congruence|].
    rewrite Hne. cbn [andb]. apply IH.
Qed.

Lemma invoke_completes (a : ReActAgent) tool_call :
  completes env a tool_call ->
  snd (invoke env a tool_call) = Return JNone.
Proof.
  intros (Hne & j & Hj). rewrite Hj. f_equal.
  revert Hj. unfold invoke, call_tool_function.
  rewrite (proj2 (String.eqb_neq _ _) Hne). cbn [andb].
  destruct (tool_functions env tool_call) as [e|s]; [cbn; congruence|].
  by apply consume_chunks_other.
Qed.

(** Requests that all return: the values and the log. *)
Lemma acting_all_returns tool_calls (w : World) :
  Forall (fun b => ∃ j, snd (invoke env (self w) b) = Return j) tool_calls ->
  acting_all env tool_calls w =
  (Return (List.map (fun b => returned (snd (invoke env (self w) b)))
                    tool_calls),
   mkWorld
     (with_memory
        (fun m => mkMemory
                    (mem_content m
                     ++ unmarked (result_turns env (self w) (next_id w)
                                               tool_calls))
                    (_compressed_summary m))
        (self w))
     (length tool_calls + next_id w) (reasoning_prompts w)).
Proof.
  revert w. induction tool_calls as [|b l IH]; intros w Hall.
  - cbn [acting_all]. run. destruct w as [[[mc ms] h r t] n ps].
    unfold with_memory. cbn. by rewrite app_nil_r.
  - apply Forall_cons in Hall as [[j Hj] Hl].
    cbn [acting_all]. run. rewrite _acting_run, Hj. run.
    set (w1 := mkWorld _ _ _).
    assert (Hr : _required_structured_model (self w1)
                 = _required_structured_model (self w)) by done.
    assert (Ht : toolkit (self w1) = toolkit (self w)) by done.
    rewrite IH.
    2:{ eapply Forall_impl; [exact Hl|]. cbn. intros b' [j' Hj'].
        exists j'. by rewrite (invoke_frame (self w) (self w1)). }
    run.
    rewrite (result_turns_frame (self w) (self w1)) by done.
    rewrite (map_ext _ (fun b0 => returned (snd (invoke env (self w) b0))))
      by (intros b'; by rewrite (invoke_frame (self w) (self w1))).
    cbn [List.map]. rewrite Hj. cbn [returned].
    subst w1. destruct w as [[[mc ms] h r t] n ps].
    unfold with_memory, Memory.add, unmarked. cbn.
    by rewrite <- app_assoc, Nat.add_succ_r.
Qed.

Lemma result_turns_elem (a : ReActAgent) n tool_calls b :
  b ∈ tool_calls ->
  ∃ k, mkMsg k "system"
             [ToolResultBlock (block_id b) (block_name b)
                              (fst (invoke env a b))]
             system JNone
       ∈ result_turns env a n tool_calls.
Proof.
  revert n. induction tool_calls as [|b' l IH]; intros n Hin;
    [by apply elem_of_nil in Hin|].
  apply elem_of_cons in Hin as [->|Hin]; cbn.
  - exists n. apply elem_of_cons. by left.
  - destruct (IH (S n) Hin) as [k Hk]. exists k.
    apply elem_of_cons. by right.
Qed.

Lemma logged_in_next_prompt (w : World) m mk :
  (m, mk) ∈ mem_content (memory (self w)) ->
  m ∈ reasoning_msgs cfg env w.
Proof.
  intros Hin. unfold reasoning_msgs. cbv zeta.
  destruct (after_plan_hint_extends w) as (_ & _ & _ & x & Hx & _).
  apply elem_of_cons. right. apply elem_of_app. left.
  unfold Memory.get_memory. rewrite Hx.
  apply list_elem_of_In, in_map_iff. exists (m, mk). split; [done|].
  apply filter_In. split; [|done].
  apply list_elem_of_In, elem_of_app. by left.
Qed.

Lemma filter_truthy_none (outs : list Json) :
  Forall (fun j => j = JNone) outs -> List.filter truthy outs = [].
Proof.
  induction 1 as [|j l -> _ IH]; cbn; [done|exact IH].
Qed.

Lemma rejected_or_completes_returns (a : ReActAgent) tool_call :
  finish_registered a = true ->
  (∃ e, rejected env a tool_call e) ∨ completes env a tool_call ->
  snd (invoke env a tool_call) = Return JNone.
Proof.
  intros Hreg [[e He]|Hc].
  - by rewrite (invoke_rejected a tool_call e).
  - by apply invoke_completes.
Qed.

(** C8. While a result schema is pending and the finishing tool is
    registered, let a reasoning turn call the finishing tool with arguments
    the schema rejects (every finishing call of the turn is rejected, the
    other tools of the turn run to their end).  Then the finishing tool's
    response has metadata [{success: false, structured_output: {}}]; the
    pass through the loop ends in [Continue], with the tool choice and the
    cached output as they were, so the loop goes on with its remaining
    budget; and the error text is logged as the result turn of the call,
    which is part of what the next reasoning step hands to the model. *)
Theorem C8_rejected_finish_call_continues
    (tool_choice : option ToolChoice) (structured_output : Json)
    (iters : nat) (w w1 : World) (msg_reasoning : Msg) :
  finish_registered (self w) = true ->
  _reasoning cfg env tool_choice w = (Return msg_reasoning, w1) ->
  Forall (fun b => (∃ e, rejected env (self w) b e) ∨ completes env (self w) b)
         (get_content_blocks "tool_use" msg_reasoning) ->
  Exists (fun b => ∃ e, rejected env (self w) b e)
         (get_content_blocks "tool_use" msg_reasoning) ->
  (∀ b e, rejected env (self w) b e ->
          tr_metadata (generate_response env (self w) (block_input b))
          = JDict [("success", JBool false); ("structured_output", JDict [])])
  ∧ ∃ w2,
      reply_iteration cfg env tool_choice structured_output w
      = (Return (Continue tool_choice structured_output), w2)
      ∧ reply_loop cfg env (S iters) tool_choice structured_output w
        = reply_loop cfg env iters tool_choice structured_output w2
      ∧ ∀ b e,
          b ∈ get_content_blocks "tool_use" msg_reasoning ->
          rejected env (self w) b e ->
          ∃ k,
            let turn :=
              mkMsg k "system"
                    [ToolResultBlock (block_id b) (block_name b)
                       (inr [TextBlock ("参数验证错误: " +:+ e)])]
                    system JNone in
            (turn, None) ∈ mem_content (memory (self w2))
            ∧ turn ∈ reasoning_msgs cfg env w2.
Proof.
  intros Hreg Hrun Hall Hex. split.
  { intros b e (_ & schema & Hs & Hv). unfold generate_response.
    by rewrite Hs, Hv. }
  pose proof (_reasoning_extends tool_choice w) as Hext.
  rewrite Hrun in Hext. cbn [snd] in Hext.
  destruct Hext as (Hr1 & Ht1 & _ & _).
  set (calls := get_content_blocks "tool_use" msg_reasoning) in *.
  assert (Hret : Forall (fun b => snd (invoke env (self w1) b) = Return JNone)
                        calls).
  { eapply Forall_impl; [exact Hall|]. cbn. intros b Hb.
    rewrite (invoke_frame (self w) (self w1)) by done.
    by apply rejected_or_completes_returns. }
  assert (Hacts := acting_all_returns calls w1).
  specialize (Hacts ltac:(eapply Forall_impl; [exact Hret|]; cbn; eauto)).
  match type of Hacts with _ = (_, ?x) => remember x as w2 eqn:Hw2 end.
  assert (Hiter : reply_iteration cfg env tool_choice structured_output w
                  = (Return (Continue tool_choice structured_output), w2)).
  { unfold reply_iteration. rewrite run_bind, Hrun, run_bind.
    fold calls. rewrite Hacts. unfold check_exit. run.
    apply Exists_exists in Hex as (b0 & Hb0 & e0 & _ & schema & Hs & _).
    replace (_required_structured_model (self w2))
      with (_required_structured_model (self w))
      by (rewrite Hw2; symmetry; exact Hr1).
    rewrite Hs.
    rewrite filter_truthy_none.
    2:{ apply Forall_map. eapply Forall_impl; [exact Hret|].
        cbn. by intros b ->. }
    cbn [last].
    unfold has_content_blocks. fold calls.
    destruct calls as [|c cs]; [by apply elem_of_nil in Hb0|].
    cbn [negb]. by run. }
  exists w2. split; [exact Hiter|]. split.
  { cbn [reply_loop]. by rewrite run_bind, Hiter. }
  intros b e Hb Hrej.
  destruct (result_turns_elem (self w1) (next_id w1) calls b Hb) as [k Hk].
  exists k. cbv zeta.
  rewrite (invoke_frame (self w) (self w1)) in Hk by done.
  rewrite (invoke_rejected (self w) b e) in Hk by done. cbn [fst] in Hk.
  assert (Hin : (mkMsg k "system"
                   [ToolResultBlock (block_id b) (block_name b)
                      (inr [TextBlock ("参数验证错误: " +:+ e)])]
                   system JNone, None)
                ∈ mem_content (memory (self w2))).
  { rewrite Hw2. unfold with_memory. cbn.
    apply elem_of_app. right. unfold unmarked.
    apply list_elem_of_In.
    apply (in_map (fun m : Msg => (m, @None _MemoryMark))).
    by apply list_elem_of_In. }
  split; [exact Hin|]. by eapply logged_in_next_prompt.
Qed.

Lemma ids_assign_metadata i md (m : InMemoryMemory) :
  Memory.ids (Memory.assign_metadata i md m) = Memory.ids m.
Proof.
  unfold Memory.ids, Memory.assign_metadata. cbn. rewrite map_map.
  apply map_ext. intros [x mk]. cbn. by destruct (Nat.eqb _ _).
Qed.

(** Leaving the loop by [break] appends nothing to the log. *)
Lemma check_exit_break msg_reasoning outs tool_choice so (w w' : World) m so' :
  check_exit cfg msg_reasoning outs tool_choice so w
  = (Return (Break m so'), w') ->
  Memory.ids (memory (self w')) = Memory.ids (memory (self w))
  ∧ msg_metadata m = so'.
Proof.
  unfold check_exit. run.
  destruct (_required_structured_model (self w)) as [schema|].
  - destruct (last _) as [so1|].
    + destruct (has_content_blocks "text" msg_reasoning); run.
      * by intros [= <- <- <-].
      * by inversion 1.
    + destruct (negb _); run; by inversion 1.
  - destruct (negb _); run; [|by inversion 1].
    intros [= <- <- <-]. cbn. split; [apply ids_assign_metadata|done].
Qed.

(** When no schema is pending a pass through the loop leaves the cached
    output as it is. *)
Lemma check_exit_not_pending msg_reasoning outs tool_choice so (w : World) :
  _required_structured_model (self w) = None ->
  ∃ x w',
    check_exit cfg msg_reasoning outs tool_choice so w = (Return x, w')
    ∧ _required_structured_model (self w') = None
    ∧ match x with
      | Break m so' => so' = so ∧ msg_metadata m = so
      | Continue _ so' => so' = so
      end.
Proof.
  intros Hnone. unfold check_exit. run. rewrite Hnone.
  destruct (negb _); run; by eexists _, _.
Qed.

Lemma reply_loop_not_pending iters tool_choice so (w : World) :
  _required_structured_model (self w) = None ->
  ∀ x so' w',
    reply_loop cfg env iters tool_choice so w = (Return (x, so'), w') ->
    so' = so ∧ ∀ m, x = Some m -> msg_metadata m = so.
Proof.
  revert tool_choice w.
  induction iters as [|n IH]; intros tool_choice w Hnone x so' w';
    cbn [reply_loop]; run.
  { intros [= <- <- <-]. done. }
  unfold reply_iteration. rewrite !run_bind.
  pose proof (_reasoning_extends tool_choice w) as (Hr1 & _).
  destruct (_reasoning cfg env tool_choice w) as [[msg|e] w1];
    [|by intros [=]]. cbn [snd] in Hr1. rewrite !run_bind.
  pose proof (acting_all_extends (get_content_blocks "tool_use" msg) w1)
    as (Hr2 & _).
  destruct (acting_all env _ w1) as [[outs|e] w2]; [|by intros [=]].
  cbn [snd] in Hr2.
  destruct (check_exit_not_pending msg outs tool_choice so w2)
    as (y & w3 & -> & Hr3 & Hy); [congruence|].
  destruct y as [m so1|tc1 so1]; run.
  - destruct Hy as [-> Hm]. intros [= <- <- <-]. split; [done|].
    by intros m' [= <-].
  - subst so1. by apply IH.
Qed.

(** Once a pass through the loop, with a schema pending, has seen a
    validated structured output that Python takes as true, every way the
    loop can end returns that output as the cached one, and a reply made
    by the loop carries it as its metadata. *)
Lemma validated_output_kept iters tool_choice so (w w1 w2 : World)
    msg_reasoning outs so' schema :
  _reasoning cfg env tool_choice w = (Return msg_reasoning, w1) ->
  acting_all env (get_content_blocks "tool_use" msg_reasoning) w1
  = (Return outs, w2) ->
  _required_structured_model (self w) = Some schema ->
  last (List.filter truthy outs) = Some so' ->
  ∀ x so'' w',
    reply_loop cfg env (S iters) tool_choice so w = (Return (x, so''), w') ->
    so'' = so' ∧ ∀ m, x = Some m -> msg_metadata m = so'.
Proof.
  intros Hrun Hact Hs Hlast x so'' w'.
  pose proof (_reasoning_extends tool_choice w) as (Hr1 & _).
  rewrite Hrun in Hr1. cbn [snd] in Hr1.
  pose proof (acting_all_extends
                (get_content_blocks "tool_use" msg_reasoning) w1)
    as (Hr2 & _).
  rewrite Hact in Hr2. cbn [snd] in Hr2.
  cbn [reply_loop]. unfold reply_iteration.
  rewrite !run_bind, Hrun. run. rewrite Hact. unfold check_exit. run.
  rewrite Hr2, Hr1, Hs, Hlast.
  destruct (has_content_blocks "text" msg_reasoning); run.
  - intros [= <- <- <-]. split; [done|]. by intros m [= <-].
  - by apply reply_loop_not_pending.
Qed.

Lemma _summarizing_frame (w : World) :
  self (snd (_summarizing cfg env w)) = self w.
Proof.
  unfold _summarizing. run.
  destruct (model env _ _ _ _) as [e|res]; run; [done|].
  by destruct (raised res).
Qed.

(** C10. (1) When, with a schema pending, the tool calls of a reasoning
    turn give a validated structured output and the turn carries text, the
    loop ends at once with a message made for the purpose, whose identity
    is not in the log: the log is as the tool calls left it.  (2) Leaving
    the loop by [break] appends nothing to the log, for any exit.  (3) After
    the loop, [reply] returns the loop's reply in the loop's final world;
    only when the loop gave none does it append: the fallback summary,
    which [_summarizing] itself had not logged, becomes the last turn. *)
Theorem C10_only_fallback_reply_is_appended :
  (∀ iters tool_choice so (w w1 w2 : World) msg_reasoning outs so' schema,
      ids_bounded w ->
      _reasoning cfg env tool_choice w = (Return msg_reasoning, w1) ->
      acting_all env (get_content_blocks "tool_use" msg_reasoning) w1
      = (Return outs, w2) ->
      _required_structured_model (self w) = Some schema ->
      last (List.filter truthy outs) = Some so' ->
      has_content_blocks "text" msg_reasoning = true ->
      let reply_msg :=
        mkMsg (next_id w2) (name cfg)
              (get_content_blocks "text" msg_reasoning) assistant so' in
      reply_loop cfg env (S iters) tool_choice so w
      = (Return (Some reply_msg, so'),
         mkWorld (self w2) (S (next_id w2)) (reasoning_prompts w2))
      ∧ (msg_id reply_msg ∉ Memory.ids (memory (self w2)))
      ∧ (msg_id reply_msg ≠ msg_id msg_reasoning))
  ∧ (∀ msg_reasoning outs tool_choice so (w w' : World) m so',
      check_exit cfg msg_reasoning outs tool_choice so w
      = (Return (Break m so'), w') ->
      Memory.ids (memory (self w')) = Memory.ids (memory (self w)))
  ∧ (∀ msg structured_model (w : World),
      match (reply_setup cfg env msg structured_model
             ≫= fun tc => reply_loop cfg env (max_iters cfg) tc JNone) w with
      | (Return (Some m, _), w2) =>
        reply cfg env msg structured_model w = (Return m, w2)
      | (Return (None, so), w2) =>
        match _summarizing cfg env w2 with
        | (Return res, w3) =>
          self w3 = self w2
          ∧ ∃ w4,
              reply cfg env msg structured_model w
              = (Return (set_metadata so res), w4)
              ∧ mem_content (memory (self w4))
                = mem_content (memory (self w2))
                  ++ [(set_metadata so res, None)]
        | (Raise e, w3) =>
          reply cfg env msg structured_model w = (Raise e, w3)
        end
      | (Raise e, w2) => reply cfg env msg structured_model w = (Raise e, w2)
      end).
Proof.
  split; [|split].
  - intros iters tool_choice so w w1 w2 msg_reasoning outs so' schema
           Hb Hrun Hact Hs Hlast Htext. cbv zeta.
    pose proof (_reasoning_extends tool_choice w) as Hext1.
    rewrite Hrun in Hext1. cbn [snd] in Hext1.
    pose proof (acting_all_extends
                  (get_content_blocks "tool_use" msg_reasoning) w1) as Hext2.
    rewrite Hact in Hext2. cbn [snd] in Hext2.
    pose proof (extends_trans _ _ _ Hext1 Hext2) as Hext.
    split; [|split].
    + destruct Hext as (Hr & _).
      cbn [reply_loop]. unfold reply_iteration.
      rewrite !run_bind, Hrun. run. rewrite Hact. unfold check_exit. run.
      rewrite Hr, Hs, Hlast, Htext. by run.
    + pose proof (extends_ids_bounded _ _ Hext Hb) as Hb2.
      unfold ids_bounded in Hb2. cbn [msg_id].
      intros Hin. eapply Forall_forall in Hb2; [|exact Hin]. lia.
    + cbn [msg_id].
      pose proof (_reasoning_run cfg env tool_choice w) as H.
      cbv zeta in H. rewrite Hrun in H.
      pose proof (after_plan_hint_extends w) as (_ & _ & Hn0 & _).
      destruct Hext2 as (_ & _ & Hn2 & _).
      destruct (model_answer cfg env tool_choice w) as [e|res];
        [discriminate|].
      destruct (raised res) as [[|what]|]; try discriminate.
      injection H as -> ->. cbn in *. lia.
  - intros msg_reasoning outs tool_choice so w w' m so' H.
    by apply check_exit_break in H as [H _].
  - intros msg structured_model w. unfold reply.
    rewrite !run_bind.
    destruct (reply_setup cfg env msg structured_model w) as [[tc|e] w1];
      [|done].
    rewrite ?run_bind.
    destruct (reply_loop cfg env (max_iters cfg) tc JNone w1)
      as [[[[m|] so]|e] w2]; [by run| |done].
    rewrite ?run_bind.
    pose proof (_summarizing_frame w2) as Hfr.
    destruct (_summarizing cfg env w2) as [[res|e] w3]; [|done].
    cbn [snd] in Hfr. split; [done|]. run.
    eexists. split; [done|]. cbn. by rewrite Hfr.
Qed.

End Loop.

(** ** The properties on concrete agents *)

Import Scenario.

(** The boundary case itself: user question, tool request 1, its result,
    final text. *)
Lemma C1_witness :
  (text_only tA = true ∧ requests "1" tB = true ∧ answers "1" tC = true
   ∧ text_only tD = true)
  ∧ compaction_candidate 2 [tA; tB; tC; tD] = [tA]
  ∧ n_keep_trace [tA; tB; tC; tD] 4 0 ∅ = [1; 1; 2; 3]%Z
  ∧ compaction_candidate 2 [tA; tB; tC; tD] ≠ [tA; tB].
Proof.
  split; [repeat split; reflexivity|].
  apply (C1_candidate_keeps_pair_together tA tB tC tD "1"); reflexivity.
Defined.

(** C4, on the code. A view of one text turn holds one unit, fewer than
    [keep_recent = 3]; the loop then ends without its [break], the candidate
    is the whole view, and with a cost above the threshold and a summary
    returned the turn is marked compressed and the summary stored. *)
Theorem C4_short_log_is_compacted :
  count_units [tA] = 1%Z
  ∧ compaction_candidate 3 [tA] = [tA]
  ∧ ∃ w',
      _compress_memory_if_needed
        (mk_cfg 2 (Some compression))
        (mk_env (scripted
                   (mkStream
                      [mkChatResponse
                         [] (JDict [("task_overview", JStr "weather")])]
                      None))
                None)
        (world_with [(tA, None)] 1)
      = (Return tt, w')
      ∧ memory (self w')
        = mkMemory [(tA, Some COMPRESSED)] "summary of the earlier turns".
Proof.
  split; [by vm_compute|]. split; [by vm_compute|].
  eexists. split; by vm_compute.
Qed.

(** C9 on a log of six turns, of which the three oldest are the candidate
    and cost more than the threshold, and a summarizer whose answer carries
    no metadata. *)
Lemma C9_witness :
  compaction_candidate 3 (List.map fst six_turns) = [tA; tB; tC]
  ∧ ∃ w',
      _compress_memory_if_needed
        (mk_cfg 2 (Some compression)) (mk_env (scripted (says [])) None)
        (world_with six_turns 6)
      = (Return tt, w')
      ∧ self w' = agent_with six_turns None [].
Proof.
  split; [by vm_compute|].
  apply (C9_failed_summary_changes_nothing
           (mk_cfg 2 (Some compression)) (mk_env (scripted (says [])) None)
           (world_with six_turns 6)).
  intros cc p Hcc. injection Hcc as <-.
  eexists _, _. repeat split; reflexivity.
Defined.

(** C2, on the code. With compaction on and the first turn marked
    compressed, the reasoning step hands the marked turn to the formatter:
    [self.memory.get_memory()] is called without [exclude_mark], unlike the
    calls of [_summarizing] and of the knowledge retrieval. *)
Theorem C2_compressed_turn_reaches_prompt :
  let w := world_with [(tA, Some COMPRESSED); (tD, None)] 4 in
  let cfg := mk_cfg 2 (Some compression) in
  let env := mk_env (scripted (says [TextBlock "Anything else?"])) None in
  Memory.get_memory (Some COMPRESSED) (memory (self w)) = [tD]
  ∧ reasoning_prompts (snd (_reasoning cfg env None w))
    = [[mkMsg 4 "system" [TextBlock "You are a helpful assistant."] system
              JNone;
        tA; tD]].
Proof. by vm_compute. Qed.

(** C3, on the code. With a plan notebook attached, the guidance turn is
    added to the log under the mark [HINT], not to the hint store; the store
    is empty after each step, but nothing removes the marked turn, and the
    second step's prompt carries the first step's guidance again, beside its
    own. *)
Theorem C3_plan_hint_stays_in_later_prompts :
  let cfg := mk_cfg 2 None in
  let env := mk_env (scripted (says [TextBlock "Working on it."]))
                    (Some (fun _ => Some [TextBlock "Current subtask: 1"])) in
  let w1 := snd (_reasoning cfg env None (world_with [(tA, None)] 1)) in
  let w2 := snd (_reasoning cfg env None w1) in
  let hint n := mkMsg n "user" [TextBlock "Current subtask: 1"] user JNone in
  let sys n :=
    mkMsg n "system" [TextBlock "You are a helpful assistant."] system JNone in
  let said n := mkMsg n "Friday" [TextBlock "Working on it."] assistant JNone in
  mem_content (_reasoning_hint_msgs (self w1)) = []
  ∧ mem_content (memory (self w1))
    = [(tA, None); (hint 1, Some HINT); (said 3, None)]
  ∧ reasoning_prompts w2
    = [[sys 2; tA; hint 1];
       [sys 5; tA; hint 1; said 3; hint 4]].
Proof. by vm_compute. Qed.

(** The claim of C6 fails when the cancellation arrives while the model call
    is awaited: the step raises it and no assistant turn is in the log. *)
Lemma C6_counterexample_cancelled_model_call :
  let cfg := mk_cfg 2 None in
  let env := mk_env (fun _ _ _ _ => CallRaises CancelledError) None in
  let r := _reasoning cfg env None (world_with [(tA, None)] 1) in
  fst r = Raise CancelledError
  ∧ mem_content (memory (self (snd r))) = [(tA, None)]
  ∧ ¬ ∃ turn, msg_role turn = assistant
              ∧ turn ∈ Memory.get_memory None (memory (self (snd r))).
Proof.
  cbv zeta. split; [by vm_compute|]. split; [by vm_compute|].
  intros (turn & Hrole & Hin). vm_compute in Hin.
  apply list_elem_of_singleton in Hin. subst turn. discriminate Hrole.
Qed.

(** C6 on a stream cut after a chunk with a text block and a tool request. *)
Lemma C6_witness :
  let cfg := mk_cfg 2 None in
  let env := mk_env (scripted cut_stream) None in
  ∃ w',
    _reasoning cfg env None (world_with [(tA, None)] 1)
    = (Raise CancelledError, w')
    ∧ mem_content (memory (self w'))
      = [(tA, None);
         (mkMsg 2 "Friday"
                [TextBlock "Let me check the weather.";
                 ToolUseBlock "1" "weather" (JDict [])]
                assistant JNone, None);
         (mkMsg 3 "system"
                [ToolResultBlock "1" "weather" (inl "工具调用已被用户中断")]
                system JNone, None)].
Proof.
  cbv zeta.
  apply (C6_cancelled_while_consuming
           (mk_cfg 2 None) (mk_env (scripted cut_stream) None) None
           (world_with [(tA, None)] 1) cut_stream); reflexivity.
Defined.

(** C7, on the code. The schema has no field, so the finishing tool's
    arguments [{}] validate and the validated data is the empty dict; being
    false for Python, it is dropped with the [None] results, the loop runs
    out of its budget, and the reply is the fallback summary with metadata
    [None]. *)
Theorem C7_empty_output_is_dropped :
  let cfg := mk_cfg 2 None in
  let env := mk_env (scripted (says finish_turn_with_text)) None in
  let r := reply cfg env [tA] (Some []) (world_with [] 1) in
  validate [] (block_input finish_call) = inr (JDict [])
  ∧ tr_metadata (generate_response env (self (asked [])) (block_input finish_call))
    = JDict [("success", JBool true); ("structured_output", JDict [])]
  ∧ msg_metadata <$> (match fst r with Return m => Some m | Raise _ => None end)
    = Some JNone
  ∧ fst (reply_loop cfg env 2 (Some choice_required) JNone (asked []))
    = Return (None, JNone).
Proof. by vm_compute. Qed.

(** C8 on the schema with the required field [answer] and a model that calls
    the finishing tool without it. *)
Lemma C8_witness :
  let cfg := mk_cfg 2 None in
  let env := mk_env (scripted (says [finish_call])) None in
  ∃ w2,
    reply_iteration cfg env (Some choice_required) JNone (asked ["answer"])
    = (Return (Continue (Some choice_required) JNone), w2)
    ∧ mem_content (memory (self w2))
      = [(tA, None);
         (mkMsg 2 "Friday" [finish_call] assistant JNone, None);
         (mkMsg 3 "system"
                [ToolResultBlock "call_1" "generate_response"
                   (inr [TextBlock "参数验证错误: answer: Field required"])]
                system JNone, None)].
Proof.
  cbv zeta.
  destruct (C8_rejected_finish_call_continues
              (mk_cfg 2 None) (mk_env (scripted (says [finish_call])) None)
              (Some choice_required) JNone 0 (asked ["answer"])
              (snd (_reasoning (mk_cfg 2 None)
                      (mk_env (scripted (says [finish_call])) None)
                      (Some choice_required) (asked ["answer"])))
              (mkMsg 2 "Friday" [finish_call] assistant JNone))
    as (_ & w2 & Hiter & _ & _).
  - reflexivity.
  - reflexivity.
  - constructor; [|constructor]. left. exists "answer: Field required".
    split; [reflexivity|]. exists ["answer"]. split; reflexivity.
  - constructor. exists "answer: Field required".
    split; [reflexivity|]. exists ["answer"]. split; reflexivity.
  - exists w2. split; [exact Hiter|].
    revert Hiter. vm_compute. by intros [= <-].
Defined.

(** C10 on the schema with the field [answer] and a model whose turn has
    text and the finishing call with that field. *)
Lemma C10_witness :
  let cfg := mk_cfg 2 None in
  let call :=
    ToolUseBlock "call_1" "generate_response" (JDict [("answer", JStr "42")]) in
  let env := mk_env (scripted (says [TextBlock "Done."; call])) None in
  ∃ w',
    reply_loop cfg env 2 (Some choice_required) JNone (asked ["answer"])
    = (Return (Some (mkMsg 4 "Friday" [TextBlock "Done."] assistant
                           (JDict [("answer", JStr "42")])),
               JDict [("answer", JStr "42")]), w')
    ∧ Memory.ids (memory (self w')) = [0; 2; 3].
Proof.
  cbv zeta.
  set (call := ToolUseBlock "call_1" "generate_response"
                            (JDict [("answer", JStr "42")])).
  set (env := mk_env (scripted (says [TextBlock "Done."; call])) None).
  set (w1 := snd (_reasoning (mk_cfg 2 None) env (Some choice_required)
                             (asked ["answer"]))).
  set (w2 := snd (acting_all env [call] w1)).
  destruct (C10_only_fallback_reply_is_appended (mk_cfg 2 None) env)
    as (Hsame & _ & _).
  destruct (Hsame 1 (Some choice_required) JNone (asked ["answer"]) w1 w2
              (mkMsg 2 "Friday" [TextBlock "Done."; call] assistant JNone)
              [JDict [("answer", JStr "42")]]
              (JDict [("answer", JStr "42")]) ["answer"])
    as (Hloop & _ & _).
  - unfold ids_bounded. by vm_compute; repeat constructor.
  - reflexivity.
  - reflexivity.
  - reflexivity.
  - reflexivity.
  - reflexivity.
  - eexists. split; [exact Hloop|]. reflexivity.
Defined.

(** * Further properties *)

(** ** More on the candidate range *)

Section Retention.

Implicit Types (acc : gset string) (m : Msg) (view met : list Msg).

(** The index loop and the walk over the messages met agree. *)
Lemma keep_loop_kept_count keep_recent view n n_keep acc :
  n ≤ length view ->
  keep_loop keep_recent view n n_keep acc =
  match kept_count keep_recent (reverse (take n view)) n_keep acc with
  | Some k => take (n - k) view
  | None => view
  end.
Proof.
  revert n_keep acc. induction n as [|i IH]; intros n_keep acc Hn; [done|].
  destruct (lookup_lt_is_Some_2 view i) as [m Hm]; [lia|].
  rewrite (take_S_r _ _ _ Hm), reverse_snoc.
  cbn [keep_loop kept_count]. rewrite Hm. cbv zeta.
  destruct (_ <=? _)%Z; [f_equal; lia|].
  rewrite IH by lia.
  by destruct (kept_count _ _ _ _).
Qed.

Lemma candidate_kept_count keep_recent view :
  compaction_candidate keep_recent view =
  match kept_count keep_recent (reverse view) 0 ∅ with
  | Some k => take (length view - k) view
  | None => view
  end.
Proof.
  unfold compaction_candidate.
  rewrite keep_loop_kept_count by done. by rewrite firstn_all.
Qed.

Lemma n_keep_trace_units_met view n n_keep acc :
  n ≤ length view ->
  n_keep_trace view n n_keep acc = units_met (reverse (take n view)) n_keep acc.
Proof.
  revert n_keep acc. induction n as [|i IH]; intros n_keep acc Hn; [done|].
  destruct (lookup_lt_is_Some_2 view i) as [m Hm]; [lia|].
  rewrite (take_S_r _ _ _ Hm), reverse_snoc.
  cbn [n_keep_trace units_met]. rewrite Hm. cbv zeta.
  by rewrite IH by lia.
Qed.

Lemma count_units_met view :
  count_units view = List.last (units_met (reverse view) 0 ∅) 0%Z.
Proof.
  unfold count_units. rewrite n_keep_trace_units_met by done.
  by rewrite firstn_all.
Qed.

Lemma kept_count_bounds keep_recent met n_keep acc k :
  kept_count keep_recent met n_keep acc = Some k -> 1 ≤ k ≤ length met.
Proof.
  revert n_keep acc k. induction met as [|m l IH]; intros n_keep acc k;
    cbn [kept_count]; [done|]. cbv zeta.
  destruct (_ <=? _)%Z; [intros [= <-]; cbn; lia|].
  destruct (kept_count _ _ _ _) as [k'|] eqn:Hk; [|done].
  intros [= <-]. apply IH in Hk. cbn. lia.
Qed.


(** X1. The candidate range is a prefix of the uncompressed view, and the
    view is the candidate followed by the retained turns: compaction takes
    the oldest turns, in order, and nothing from the middle. *)
Theorem candidate_is_prefix (keep_recent : Z) (view : list Msg) :
  ∃ i, i ≤ length view
       ∧ compaction_candidate keep_recent view = take i view
       ∧ view = compaction_candidate keep_recent view
                ++ retained keep_recent view.
Proof.
  unfold retained. rewrite candidate_kept_count.
  destruct (kept_count _ _ _ _) as [k|] eqn:Hk.
  - exists (length view - k). split; [lia|]. split; [done|].
    by rewrite length_take_le, take_drop by lia.
  - exists (length view). split; [done|]. split; [by rewrite firstn_all|].
    by rewrite drop_all, app_nil_r.
Qed.

Lemma reverse_retained keep_recent view k :
  kept_count keep_recent (reverse view) 0 ∅ = Some k ->
  retained keep_recent view = drop (length view - k) view
  ∧ reverse (retained keep_recent view) = take k (reverse view)
  ∧ length (retained keep_recent view) = k.
Proof.
  intros Hk. pose proof (kept_count_bounds _ _ _ _ _ Hk) as Hb.
  rewrite length_reverse in Hb.
  unfold retained. rewrite candidate_kept_count, Hk.
  rewrite length_take_le by lia. split; [done|]. split.
  - rewrite reverse_drop. f_equal. lia.
  - rewrite length_drop. lia.
Qed.

Lemma retained_exhausted keep_recent view :
  kept_count keep_recent (reverse view) 0 ∅ = None ->
  compaction_candidate keep_recent view = view
  ∧ retained keep_recent view = [].
Proof.
  intros Hk. unfold retained. rewrite candidate_kept_count, Hk.
  by rewrite drop_all.
Qed.

(** Membership in the set after the two inner loops. *)
Lemma add_results_elem (x : string) (l : list ContentBlock) acc :
  x ∈ acc ∨ (∃ b, b ∈ l ∧ block_id b = x) ->
  x ∈ foldl (fun acc block => acc ∪ {[ block_id block ]}) acc l.
Proof.
  revert acc. induction l as [|b l IH]; intros acc; cbn.
  - intros [H|(b & Hb & _)]; [done|by apply elem_of_nil in Hb].
  - intros [H|(b' & Hb & Hid)]; apply IH.
    + left. set_solver.
    + apply elem_of_cons in Hb as [->|Hb]; [left; set_solver|].
      right. by exists b'.
Qed.

Lemma drop_requests_elem (x : string) (l : list ContentBlock) acc :
  x ∈ acc ->
  x ∈ foldl (fun acc block =>
               if decide (block_id block ∈ acc)
               then acc ∖ {[ block_id block ]} else acc) acc l
  ∨ ∃ b, b ∈ l ∧ block_id b = x.
Proof.
  revert acc. induction l as [|b l IH]; intros acc Hx; cbn; [by left|].
  destruct (decide (block_id b = x)) as [Heq|Hne].
  { right. exists b. split; [apply elem_of_cons; by left|done]. }
  destruct (IH (if decide (block_id b ∈ acc)
                then acc ∖ {[ block_id b ]} else acc)) as [H|(b' & Hb & Hid)].
  - case_decide; set_solver.
  - by left.
  - right. exists b'. split; [apply elem_of_cons; by right|done].
Qed.

Lemma scan_msg_elem (x : string) acc m :
  x ∈ acc ∨ (∃ b, b ∈ get_content_blocks "tool_result" m ∧ block_id b = x) ->
  x ∈ scan_msg acc m
  ∨ ∃ b, b ∈ get_content_blocks "tool_use" m ∧ block_id b = x.
Proof.
  intros H. unfold scan_msg. cbv zeta.
  apply drop_requests_elem. by apply add_results_elem.
Qed.

(** After any walk, a tool result met is either still open or answered by a
    tool request met at the same message or later in the walk. *)
Lemma scanned_pairs acc0 (met : list Msg) :
  ∀ r2 m r1 b,
    met = r2 ++ m :: r1 ->
    b ∈ get_content_blocks "tool_result" m ->
    block_id b ∈ foldl scan_msg acc0 met
    ∨ ∃ m' b', m' ∈ m :: r1
               ∧ b' ∈ get_content_blocks "tool_use" m'
               ∧ block_id b' = block_id b.
Proof.
  induction met as [|x l IH] using rev_ind; intros r2 m r1 b Hsplit Hb.
  { by destruct r2. }
  rewrite foldl_snoc.
  destruct r1 as [|y r1' _] using rev_ind.
  - apply app_inj_tail in Hsplit as [-> ->].
    destruct (scan_msg_elem (block_id b) (foldl scan_msg acc0 r2) m)
      as [H|(b' & Hb' & Hid)]; [right; by exists b|by left|].
    right. exists m, b'. split; [apply elem_of_cons; by left|done].
  - change (r2 ++ m :: r1' ++ [y]) with (r2 ++ (m :: r1') ++ [y]) in Hsplit.
    rewrite app_assoc in Hsplit.
    apply app_inj_tail in Hsplit as [-> ->].
    destruct (IH r2 m r1' b eq_refl Hb) as [Hin|(m' & b' & Hm' & Hb' & Hid)].
    + destruct (scan_msg_elem (block_id b)
                  (foldl scan_msg acc0 (r2 ++ m :: r1')) y)
        as [H|(b' & Hb' & Hid)]; [by left|by left|].
      right. exists y, b'. split; [|done].
      apply elem_of_cons. right. apply elem_of_app. right.
      by apply list_elem_of_singleton.
    + right. exists m', b'. split; [|done].
      apply elem_of_cons in Hm' as [->|Hm']; apply elem_of_cons;
        [by left|right]. apply elem_of_app. by left.
Qed.

(** With [keep_recent] at least 1 the loop breaks only where no pair is
    open. *)
Lemma kept_count_closed keep_recent met n_keep acc k :
  kept_count keep_recent met n_keep acc = Some k ->
  (n_keep < keep_recent)%Z ->
  foldl scan_msg acc (take k met) = ∅.
Proof.
  revert n_keep acc k. induction met as [|m l IH]; intros n_keep acc k;
    cbn [kept_count]; [done|]. cbv zeta.
  destruct (Z.leb_spec keep_recent
              (if Nat.eqb (size (scan_msg acc m)) 0
               then (n_keep + 1)%Z else n_keep)) as [Hle|Hlt].
  - intros [= <-] Hn. cbn.
    destruct (Nat.eqb_spec (size (scan_msg acc m)) 0) as [H0|_]; [|lia].
    by apply size_empty_inv, leibniz_equiv in H0.
  - destruct (kept_count _ _ _ _) as [k'|] eqn:Hk; [|done].
    intros [= <-] Hn. cbn. by eapply IH.
Qed.

(** X2. With [keep_recent] at least 1, every tool result in a retained turn
    has a tool request with the same identifier in that turn or in an
    earlier retained turn: the cut never separates a retained result from
    its request. *)
Theorem retained_pairs_are_whole (keep_recent : Z) (view l1 l2 : list Msg)
    (m : Msg) (b : ContentBlock) :
  (1 <= keep_recent)%Z ->
  retained keep_recent view = l1 ++ m :: l2 ->
  b ∈ get_content_blocks "tool_result" m ->
  ∃ m' b', m' ∈ l1 ++ [m]
           ∧ b' ∈ get_content_blocks "tool_use" m'
           ∧ block_id b' = block_id b.
Proof.
  intros Hkr Hsplit Hb.
  destruct (kept_count keep_recent (reverse view) 0 ∅) as [k|] eqn:Hk.
  2:{ apply retained_exhausted in Hk as [_ Hk]. rewrite Hk in Hsplit.
      by destruct l1. }
  pose proof (kept_count_closed _ _ _ _ _ Hk ltac:(lia)) as Hclosed.
  destruct (reverse_retained _ _ _ Hk) as (_ & Hrev & _).
  rewrite <- Hrev, Hsplit, reverse_app, reverse_cons, <- app_assoc in Hclosed.
  destruct (scanned_pairs ∅ _ (reverse l2) m (reverse l1) b eq_refl Hb)
    as [Hin|(m' & b' & Hm' & Hb' & Hid)].
  - cbn in Hclosed. rewrite Hclosed in Hin. set_solver.
  - exists m', b'. split; [|done].
    apply elem_of_cons in Hm' as [->|Hm'].
    + apply elem_of_app. right. by apply list_elem_of_singleton.
    + apply elem_of_app. left. by apply elem_of_reverse.
Qed.

(** X3. With [keep_recent] zero or negative and a view that is not empty, the
    loop breaks at its first iteration whatever the last turn holds: the
    candidate is the view without its last turn, and one turn is retained. *)
Theorem nothing_to_keep_keeps_the_last_turn (keep_recent : Z)
    (view : list Msg) :
  (keep_recent <= 0)%Z ->
  view ≠ [] ->
  compaction_candidate keep_recent view = take (length view - 1) view
  ∧ length (retained keep_recent view) = 1.
Proof.
  intros Hkr Hne.
  assert (Hk : kept_count keep_recent (reverse view) 0 ∅ = Some 1).
  { destruct (reverse view) as [|m r] eqn:Hrev.
    - apply (f_equal reverse) in Hrev. by rewrite reverse_involutive in Hrev.
    - cbn [kept_count]. cbv zeta.
      destruct (Z.leb_spec keep_recent
                  (if Nat.eqb (size (scan_msg ∅ m)) 0 then (0 + 1)%Z else 0%Z));
        [done|]. destruct (Nat.eqb _ _); lia. }
  split.
  - by rewrite candidate_kept_count, Hk.
  - by destruct (reverse_retained _ _ _ Hk) as (_ & _ & ?).
Qed.

Lemma last_cons_default (x d : Z) (l : list Z) :
  List.last (x :: l) d = List.last l x.
Proof.
  revert x d. induction l as [|y l IH]; intros x d; [done|].
  change (List.last (x :: y :: l) d) with (List.last (y :: l) d).
  by rewrite !IH.
Qed.

Lemma units_met_mono met n_keep acc :
  (n_keep <= List.last (units_met met n_keep acc) n_keep)%Z
  ∧ Forall (fun k => (k <= List.last (units_met met n_keep acc) n_keep)%Z)
           (units_met met n_keep acc).
Proof.
  revert n_keep acc. induction met as [|m l IH]; intros n_keep acc;
    cbn [units_met]; [by split|]. cbv zeta.
  set (n' := if Nat.eqb _ _ then _ else _).
  rewrite last_cons_default.
  destruct (IH n' (scan_msg acc m)) as [Hle Hall].
  assert (n_keep <= n')%Z by (subst n'; destruct (Nat.eqb _ _); lia).
  split; [lia|]. by constructor.
Qed.

Lemma kept_count_none keep_recent met n_keep acc :
  kept_count keep_recent met n_keep acc = None
  <-> Forall (fun k => (k < keep_recent)%Z) (units_met met n_keep acc).
Proof.
  revert n_keep acc. induction met as [|m l IH]; intros n_keep acc;
    cbn [kept_count units_met]; [done|]. cbv zeta.
  set (n' := if Nat.eqb _ _ then _ else _).
  destruct (Z.leb_spec keep_recent n').
  - split; [done|]. intros [? _]%Forall_cons. lia.
  - rewrite Forall_cons, <- IH.
    destruct (kept_count _ _ _ _); naive_solver.
Qed.

(** X4. When the view holds fewer units than [keep_recent], the loop never
    reaches its [break]: the candidate is the whole view and nothing is
    retained. *)
Theorem too_few_units_all_selected (keep_recent : Z) (view : list Msg) :
  (count_units view < keep_recent)%Z ->
  compaction_candidate keep_recent view = view
  ∧ retained keep_recent view = [].
Proof.
  intros Hlt. apply retained_exhausted, kept_count_none.
  rewrite count_units_met in Hlt.
  destruct (units_met_mono (reverse view) 0 ∅) as [_ Hall].
  eapply Forall_impl; [exact Hall|]. cbn. intros; lia.
Qed.

Lemma kept_count_units keep_recent met n_keep acc k :
  kept_count keep_recent met n_keep acc = Some k ->
  (n_keep < keep_recent)%Z ->
  List.last (units_met (take k met) n_keep acc) n_keep = keep_recent.
Proof.
  revert n_keep acc k. induction met as [|m l IH]; intros n_keep acc k;
    cbn [kept_count]; [done|]. cbv zeta.
  destruct (Z.leb_spec keep_recent
              (if Nat.eqb (size (scan_msg acc m)) 0
               then (n_keep + 1)%Z else n_keep)) as [Hle|Hlt].
  - intros [= <-] Hn. cbn [take units_met]. cbv zeta.
    rewrite last_cons_default, take_0. cbn [units_met List.last].
    destruct (Nat.eqb _ _); lia.
  - destruct (kept_count _ _ _ _) as [k'|] eqn:Hk; [|done].
    intros [= <-] Hn. cbn [take units_met]. cbv zeta.
    rewrite last_cons_default. by eapply IH.
Qed.

(** X5. With [keep_recent] at least 1 and at least that many units in the
    view, the retained turns hold exactly [keep_recent] units. *)
Theorem retained_units_are_keep_recent (keep_recent : Z) (view : list Msg) :
  (1 <= keep_recent)%Z ->
  (keep_recent <= count_units view)%Z ->
  count_units (retained keep_recent view) = keep_recent.
Proof.
  intros Hkr Hle.
  destruct (kept_count keep_recent (reverse view) 0 ∅) as [k|] eqn:Hk.
  - destruct (reverse_retained _ _ _ Hk) as (_ & Hrev & _).
    rewrite count_units_met, Hrev.
    apply kept_count_units; [done|lia].
  - apply kept_count_none in Hk. rewrite count_units_met in Hle.
    destruct (units_met (reverse view) 0 ∅) as [|u us] eqn:Hu; [cbn in Hle; lia|].
    assert (Hlast : List.last (u :: us) 0%Z ∈ u :: us).
    { apply list_elem_of_In.
      rewrite (app_removelast_last 0%Z (l:=u :: us)) at 2 by done.
      apply in_or_app. right. by left. }
    eapply Forall_forall in Hk; [|exact Hlast]. lia.
Qed.

Lemma kept_count_take keep_recent met n_keep acc k :
  kept_count keep_recent met n_keep acc = Some k ->
  kept_count keep_recent (take k met) n_keep acc = Some k.
Proof.
  revert n_keep acc k. induction met as [|m l IH]; intros n_keep acc k;
    cbn [kept_count]; [done|]. cbv zeta.
  destruct (_ <=? _)%Z eqn:Hle.
  - intros [= <-]. cbn [take kept_count]. cbv zeta. by rewrite Hle.
  - destruct (kept_count _ _ _ _) as [k'|] eqn:Hk; [|done].
    intros [= <-]. cbn [take kept_count]. cbv zeta.
    by rewrite Hle, (IH _ _ _ Hk).
Qed.

(** X6. Selecting again on what was retained selects nothing: the candidate
    of the retained turns is empty. *)
Theorem selection_is_idempotent (keep_recent : Z) (view : list Msg) :
  compaction_candidate keep_recent (retained keep_recent view) = [].
Proof.
  destruct (kept_count keep_recent (reverse view) 0 ∅) as [k|] eqn:Hk.
  - destruct (reverse_retained _ _ _ Hk) as (_ & Hrev & Hlen).
    rewrite candidate_kept_count, Hrev, (kept_count_take _ _ _ _ _ Hk), Hlen.
    by rewrite Nat.sub_diag.
  - apply retained_exhausted in Hk as [_ ->]. done.
Qed.

End Retention.

(** ** More on the compaction engine *)


Lemma existsb_eqb_In (i : nat) (l : list nat) :
  List.existsb (Nat.eqb i) l = true <-> In i l.
Proof.
  rewrite existsb_exists. split.
  - intros (x & Hx & ->%Nat.eqb_eq). done.
  - intros H. exists i. by rewrite Nat.eqb_refl.
Qed.


Section Engine.

Context {Prompt Schema : Type}.
Variable cfg : @Config Prompt Schema.
Variable env : @Env Prompt Schema.
Local Abbreviation World := (@World Schema).

(** X7. Without a compaction configuration, with compaction disabled, or when
    the token counter never exceeds the threshold (a cost equal to the
    threshold included), the engine returns normally and the agent is as
    before. *)
Theorem compaction_off_or_cheap_is_noop (w : World) :
  match compression_config cfg with
  | None => True
  | Some cc =>
    enable cc = false
    ∨ ∀ p, (agent_token_counter cc p <= trigger_threshold cc)%Z
  end ->
  ∃ w', _compress_memory_if_needed cfg env w = (Return tt, w')
        ∧ self w' = self w.
Proof.
  unfold _compress_memory_if_needed.
  destruct (compression_config cfg) as [cc|]; [|by eexists].
  intros [Hoff|Hcheap].
  - rewrite Hoff. by eexists.
  - destruct (enable cc); cbn [negb]; [|by eexists].
    run. destruct (compaction_candidate _ _) as [|m0 ms]; [by eexists|].
    run.
    match goal with
    | |- context [(trigger_threshold cc <? agent_token_counter cc ?p)%Z] =>
      destruct (Z.ltb_spec (trigger_threshold cc) (agent_token_counter cc p))
        as [Hlt|_]; [specialize (Hcheap p); lia|]
    end.
    by eexists.
Qed.

(** X8. When the compaction engine raises (the summarization call or its
    stream raises, the stream is empty, the template misses a key), the
    agent is as before: nothing is marked and no summary is stored. *)
Theorem compaction_failure_changes_nothing (w w' : World) (e : Exn) :
  _compress_memory_if_needed cfg env w = (Raise e, w') ->
  self w' = self w.
Proof.
  unfold _compress_memory_if_needed.
  destruct (compression_config cfg) as [cc|]; [|by intros [=]].
  destruct (enable cc); cbn [negb]; [|by intros [=]].
  run. destruct (compaction_candidate _ _) as [|m0 ms]; [by intros [=]|].
  run. destruct (_ <? _)%Z; [|by intros [=]].
  run. destruct (summarizer env cc _ _) as [e'|s]; run.
  { by intros [= _ <-]. }
  destruct (raised s) as [e'|]; run.
  { by intros [= _ <-]. }
  destruct (last (received s)) as [chunk|]; run; [|by intros [= _ <-]].
  destruct (truthy _); run; [|by intros [=]].
  destruct (str_format env _ _); run; [by intros [=]|by intros [= _ <-]].
Qed.


End Engine.

(** ** More on reasoning and acting *)

Lemma interrupted_turns_blocks n blocks :
  List.map msg_content (interrupted_turns n blocks)
  = List.map
      (fun b => [ToolResultBlock (block_id b) (block_name b)
                                 (inl "工具调用已被用户中断")])
      blocks.
Proof.
  revert n. induction blocks as [|b l IH]; intros n; cbn; [done|].
  by rewrite IH.
Qed.

Section MoreSteps.

Context {Prompt Schema : Type}.
Variable cfg : @Config Prompt Schema.
Variable env : @Env Prompt Schema.
Local Abbreviation World := (@World Schema).


(** X11. When the model's stream raises an error other than the
    cancellation, the step raises it and the log grows by the assistant turn
    received so far and by nothing else: no result is synthesized for the
    tool requests of that turn. *)
Theorem stream_error_logs_turn_only (tool_choice : option ToolChoice)
    (w : World) (res : Stream ChatResponse) (what : string) :
  model_answer cfg env tool_choice w = Responds res ->
  raised res = Some (OtherError what) ->
  ∃ w',
    _reasoning cfg env tool_choice w = (Raise (OtherError what), w')
    ∧ mem_content (memory (self w')) =
      mem_content (memory (self (after_plan_hint env w)))
      ++ [(assistant_turn cfg env w res, None)].
Proof.
  intros Hans Hres.
  pose proof (_reasoning_run cfg env tool_choice w) as H. cbv zeta in H.
  rewrite H, Hans, Hres. by eexists.
Qed.

(** X12. When the model call itself raises, the step raises the same
    exception, the log is as the plan hint left it, and the hint store has
    been emptied all the same: the pending hints were formatted into the
    recorded prompt and are gone. *)
Theorem failed_model_call_uses_up_hints (tool_choice : option ToolChoice)
    (w : World) (e : Exn) :
  model_answer cfg env tool_choice w = CallRaises e ->
  ∃ w',
    _reasoning cfg env tool_choice w = (Raise e, w')
    ∧ memory (self w') = memory (self (after_plan_hint env w))
    ∧ mem_content (_reasoning_hint_msgs (self w')) = []
    ∧ reasoning_prompts w' = reasoning_prompts w ++ [reasoning_msgs cfg env w].
Proof.
  intros Hans.
  pose proof (_reasoning_run cfg env tool_choice w) as H. cbv zeta in H.
  rewrite H, Hans. eexists. split; [done|]. cbn.
  by destruct (after_plan_hint_frame env w) as (_ & _ & _ & ->).
Qed.

Lemma consume_chunks_value tool_call chunks stop output j :
  snd (consume_chunks tool_call chunks stop output) = Return j ->
  j ≠ JNone ->
  block_name tool_call = finish_function_name.
Proof.
  intros Hj Hne.
  destruct (String.eqb_spec (block_name tool_call) finish_function_name)
    as [Heq|Hneq]; [done|].
  by apply (consume_chunks_other tool_call chunks stop output Hneq) in Hj.
Qed.

(** X13. [_acting] returns a value other than [None] only for a request
    named as the finishing tool; and when that tool is registered, only with
    a schema pending whose validation of the request's arguments gives that
    value. *)
Theorem structured_output_has_one_source (tool_call : ContentBlock)
    (w w' : World) (j : Json) :
  _acting env tool_call w = (Return j, w') ->
  j ≠ JNone ->
  block_name tool_call = finish_function_name
  ∧ (finish_registered (self w) = true ->
     ∃ schema,
       _required_structured_model (self w) = Some schema
       ∧ model_validate env schema (block_input tool_call) = inr j).
Proof.
  rewrite _acting_run. intros [= Hj _] Hne.
  revert Hj. unfold invoke, call_tool_function, generate_response.
  fold (finish_registered (self w)).
  destruct (String.eqb_spec (block_name tool_call) finish_function_name)
    as [Hname|Hname]; cbn [andb].
  2:{ destruct (tool_functions env tool_call) as [e|s]; [by intros [=]|].
      intros Hj. by apply consume_chunks_value in Hj. }
  split; [done|]. revert Hj.
  destruct (finish_registered (self w)); [|by intros _ [=]].
  intros Hj _. revert Hj. cbn [received raised].
  destruct (_required_structured_model (self w)) as [schema|].
  - destruct (model_validate env schema (block_input tool_call))
      as [err|so] eqn:Hv;
      cbn [consume_chunks is_interrupted tr_metadata tr_content];
      rewrite Hname, String.eqb_refl; cbn.
    + by intros [= <-].
    + intros [= <-]. by exists schema.
  - cbn [consume_chunks is_interrupted tr_metadata tr_content].
    rewrite Hname, String.eqb_refl. cbn. by intros [= <-].
Qed.

Lemma consume_chunks_interrupted tool_call pre c post stop output :
  block_name tool_call ≠ finish_function_name ->
  Forall (fun c => is_interrupted c = false) pre ->
  is_interrupted c = true ->
  consume_chunks tool_call (pre ++ c :: post) stop output
  = (inr (tr_content c), Raise CancelledError).
Proof.
  intros Hne%String.eqb_neq Hpre Hc. revert output.
  induction Hpre as [|c0 l H0 _ IH]; intros output; cbn [app consume_chunks].
  - by rewrite Hc.
  - rewrite H0, Hne. cbn [andb]. apply IH.
Qed.

(** X14. For a tool other than the finishing tool whose stream reports an
    interruption at some chunk, after chunks that report none, [_acting]
    raises the cancellation and the logged result carries the content of the
    interrupted chunk itself; the chunks after it are not read. *)
Theorem interrupted_chunk_is_recorded (tool_call : ContentBlock) (w : World)
    (pre post : list ToolResponse) (c : ToolResponse) (stop : option Exn) :
  block_name tool_call ≠ finish_function_name ->
  tool_functions env tool_call = Responds (mkStream (pre ++ c :: post) stop) ->
  Forall (fun c => is_interrupted c = false) pre ->
  is_interrupted c = true ->
  ∃ w',
    _acting env tool_call w = (Raise CancelledError, w')
    ∧ mem_content (memory (self w')) =
      mem_content (memory (self w))
      ++ [(mkMsg (next_id w) "system"
                 [ToolResultBlock (block_id tool_call) (block_name tool_call)
                                  (inr (tr_content c))]
                 system JNone, None)].
Proof.
  intros Hne Hcall Hpre Hc. rewrite _acting_run.
  assert (Hinv : invoke env (self w) tool_call
                 = (inr (tr_content c), Raise CancelledError)).
  { unfold invoke, call_tool_function.
    rewrite (proj2 (String.eqb_neq _ _) Hne). cbn [andb]. rewrite Hcall.
    cbn [received raised]. by apply consume_chunks_interrupted. }
  rewrite Hinv. by eexists.
Qed.

(** X15. For a call of the registered finishing tool whose arguments the
    pending schema accepts, [_acting] returns the validated data (also when
    it is empty), logs the success text as the call's result, and leaves the
    schema pending. *)
Theorem valid_finish_call_returns_data (tool_call : ContentBlock) (w : World)
    (schema : Schema) (data : Json) :
  block_name tool_call = finish_function_name ->
  finish_registered (self w) = true ->
  _required_structured_model (self w) = Some schema ->
  model_validate env schema (block_input tool_call) = inr data ->
  ∃ w',
    _acting env tool_call w = (Return data, w')
    ∧ mem_content (memory (self w')) =
      mem_content (memory (self w))
      ++ [(mkMsg (next_id w) "system"
                 [ToolResultBlock (block_id tool_call) finish_function_name
                                  (inr [TextBlock "成功生成响应"])]
                 system JNone, None)]
    ∧ _required_structured_model (self w') = Some schema.
Proof.
  intros Hname Hreg Hs Hv. rewrite _acting_run.
  assert (Hinv : invoke env (self w) tool_call
                 = (inr [TextBlock "成功生成响应"], Return data)).
  { unfold invoke, call_tool_function, generate_response.
    unfold finish_registered in Hreg.
    rewrite Hname, String.eqb_refl, Hreg, Hs, Hv. cbn [andb received raised].
    cbn [consume_chunks is_interrupted tr_metadata tr_content].
    rewrite Hname, String.eqb_refl. reflexivity. }
  rewrite Hinv, Hname. by eexists.
Qed.

Lemma acting_all_stops (pre post : list ContentBlock) (b : ContentBlock)
    (e : Exn) (w : World) :
  Forall (fun b => ∃ j, snd (invoke env (self w) b) = Return j) pre ->
  snd (invoke env (self w) b) = Raise e ->
  acting_all env (pre ++ b :: post) w =
  (Raise e,
   mkWorld
     (with_memory
        (fun m => mkMemory
                    (mem_content m
                     ++ unmarked (result_turns env (self w) (next_id w)
                                               (pre ++ [b])))
                    (_compressed_summary m))
        (self w))
     (length (pre ++ [b]) + next_id w) (reasoning_prompts w)).
Proof.
  revert w. induction pre as [|b0 l IH]; intros w Hpre Hb.
  - cbn [app acting_all]. run. rewrite _acting_run, Hb.
    destruct w as [[[mc ms] h r t] n ps].
    unfold with_memory, Memory.add, unmarked. reflexivity.
  - apply Forall_cons in Hpre as [[j Hj] Hl].
    cbn [app acting_all]. run. rewrite _acting_run, Hj. run.
    set (w1 := mkWorld _ _ _).
    assert (Hr : _required_structured_model (self w1)
                 = _required_structured_model (self w)) by done.
    assert (Ht : toolkit (self w1) = toolkit (self w)) by done.
    rewrite IH.
    2:{ eapply Forall_impl; [exact Hl|]. cbn. intros b' [j' Hj'].
        exists j'. by rewrite (invoke_frame env (self w) (self w1)). }
    2:{ by rewrite (invoke_frame env (self w) (self w1)). }
    rewrite (result_turns_frame env (self w) (self w1)) by done.
    subst w1. destruct w as [[[mc ms] h r t] n ps].
    unfold with_memory, Memory.add, unmarked. cbn.
    by rewrite <- app_assoc, Nat.add_succ_r.
Qed.

Lemma result_turns_blocks (a : ReActAgent) n tool_calls :
  List.map (fun m => List.map (fun b => (block_id b, block_name b))
                              (msg_content m))
           (result_turns env a n tool_calls)
  = List.map (fun b => [(block_id b, block_name b)]) tool_calls.
Proof.
  revert n. induction tool_calls as [|b l IH]; intros n; cbn; [done|].
  by rewrite IH.
Qed.

(** X16. Run one at a time, the requests stop at the first one that raises:
    the exception propagates, the log holds one result turn for each request
    up to and including the failing one, in order, and none for the requests
    after it. *)
Theorem requests_after_a_failure_stay_unanswered
    (pre post : list ContentBlock) (b : ContentBlock) (e : Exn) (w : World) :
  Forall (fun b => ∃ j, snd (invoke env (self w) b) = Return j) pre ->
  snd (invoke env (self w) b) = Raise e ->
  ∃ w' turns,
    acting_all env (pre ++ b :: post) w = (Raise e, w')
    ∧ mem_content (memory (self w')) =
      mem_content (memory (self w)) ++ unmarked turns
    ∧ List.map (fun m => List.map (fun b => (block_id b, block_name b))
                                  (msg_content m)) turns
      = List.map (fun b => [(block_id b, block_name b)]) (pre ++ [b]).
Proof.
  intros Hpre Hb. rewrite (acting_all_stops pre post b e w Hpre Hb).
  eexists _, _. split; [done|]. split; [done|]. apply result_turns_blocks.
Qed.


End MoreSteps.

(** ** More on the entry operation *)

Section MoreLoop.

Context {Prompt Schema : Type}.
Variable cfg : @Config Prompt Schema.
Variable env : @Env Prompt Schema.
Local Abbreviation World := (@World Schema).

(** The identities and marks of the log, in order. *)
Local Abbreviation keys w :=
  (List.map (fun e : Msg * option _MemoryMark => (msg_id (fst e), snd e))
            (mem_content (memory (self w)))).

Lemma retrieve_ltm_run (msg : list Msg) (w : World) :
  ∃ extra,
    _retrieve_from_long_term_memory cfg env msg w
    = (Return tt,
       mkWorld
         (with_memory
            (fun m => mkMemory (mem_content m ++ extra) (_compressed_summary m))
            (self w))
         (length extra + next_id w) (reasoning_prompts w))
    ∧ (msg = [] -> extra = []).
Proof.
  assert (Hnone : ∃ extra : list (Msg * option _MemoryMark),
    (Return tt, w)
    = (Return tt,
       mkWorld
         (with_memory
            (fun m => mkMemory (mem_content m ++ extra) (_compressed_summary m))
            (self w))
         (length extra + next_id w) (reasoning_prompts w))
    ∧ (msg = [] -> extra = [])).
  { exists []. split; [|done]. destruct w as [[[mc ms] h r t] n ps].
    unfold with_memory. cbn. by rewrite app_nil_r. }
  unfold _retrieve_from_long_term_memory.
  destruct (_static_control cfg); cbn [andb]; [|exact Hnone].
  destruct msg as [|m0 ms]; cbn [length Nat.eqb negb]; [exact Hnone|].
  destruct (negb _); [|exact Hnone].
  run. eexists [_]. split; [|done]. reflexivity.
Qed.

Lemma retrieve_knowledge_run (msg : list Msg) (w : World) :
  ∃ extra,
    _retrieve_from_knowledge cfg env msg w
    = (Return tt,
       mkWorld
         (with_memory
            (fun m => mkMemory (mem_content m ++ extra) (_compressed_summary m))
            (self w))
         (length extra + next_id w) (reasoning_prompts w))
    ∧ (msg = [] -> extra = []).
Proof.
  assert (Hnone : ∃ extra : list (Msg * option _MemoryMark),
    (Return tt, w)
    = (Return tt,
       mkWorld
         (with_memory
            (fun m => mkMemory (mem_content m ++ extra) (_compressed_summary m))
            (self w))
         (length extra + next_id w) (reasoning_prompts w))
    ∧ (msg = [] -> extra = [])).
  { exists []. split; [|done]. destruct w as [[[mc ms] h r t] n ps].
    unfold with_memory. cbn. by rewrite app_nil_r. }
  unfold _retrieve_from_knowledge.
  destruct (has_knowledge cfg); cbn [andb]; [|exact Hnone].
  destruct msg as [|m0 ms]; cbn [length Nat.eqb negb]; [exact Hnone|].
  run. destruct (knowledge_retrieve env _ _) as [|d ds]; [exact Hnone|].
  run. eexists [_]. split; [|done]. reflexivity.
Qed.

(** What [reply] has done when the loop starts. *)
Lemma reply_setup_run (msg : list Msg) (structured_model : option Schema)
    (w : World) :
  ∃ w1 extra,
    reply_setup cfg env msg structured_model w
    = (Return (match structured_model with
               | Some _ => Some choice_required
               | None => None
               end), w1)
    ∧ _required_structured_model (self w1) = structured_model
    ∧ toolkit (self w1)
      = match structured_model with
        | Some sm => register_finish sm (toolkit (self w))
        | None => remove_finish (toolkit (self w))
        end
    ∧ _reasoning_hint_msgs (self w1) = _reasoning_hint_msgs (self w)
    ∧ reasoning_prompts w1 = reasoning_prompts w
    ∧ _compressed_summary (memory (self w1))
      = _compressed_summary (memory (self w))
    ∧ mem_content (memory (self w1))
      = mem_content (memory (self w)) ++ unmarked msg ++ extra
    ∧ next_id w1 = length extra + next_id w
    ∧ (msg = [] -> extra = []).
Proof.
  unfold reply_setup. run.
  match goal with
  | |- context [_retrieve_from_long_term_memory cfg env msg ?w0] =>
    destruct (retrieve_ltm_run msg w0) as (x1 & -> & H1)
  end.
  run.
  match goal with
  | |- context [_retrieve_from_knowledge cfg env msg ?w0] =>
    destruct (retrieve_knowledge_run msg w0) as (x2 & -> & H2)
  end.
  run.
  destruct structured_model as [sm|]; run;
    (eexists _, (x1 ++ x2); split; [reflexivity|]);
    unfold with_memory, with_required, with_toolkit, Memory.add, unmarked;
    cbn; rewrite <- !app_assoc, length_app;
    (repeat split; try done; try lia);
    intros Hm; by rewrite (H1 Hm), (H2 Hm).
Qed.

Lemma acting_all_prompts tool_calls (w : World) :
  reasoning_prompts (snd (acting_all env tool_calls w)) = reasoning_prompts w
  ∧ _reasoning_hint_msgs (self (snd (acting_all env tool_calls w)))
    = _reasoning_hint_msgs (self w).
Proof.
  revert w. induction tool_calls as [|b l IH]; intros w;
    cbn [acting_all]; run; [done|].
  rewrite _acting_run.
  destruct (snd (invoke env (self w) b)) as [j|e]; [|done].
  run. match goal with |- context [acting_all env l ?w0] =>
    destruct (IH w0) as [Hp Hh]; destruct (acting_all env l w0) as [[js|e] w2]
  end; run; by rewrite ?Hp, ?Hh.
Qed.

Lemma check_exit_frame msg_reasoning outs tool_choice so (w : World) :
  ∃ x w',
    check_exit cfg msg_reasoning outs tool_choice so w = (Return x, w')
    ∧ reasoning_prompts w' = reasoning_prompts w
    ∧ keys w `prefix_of` keys w'.
Proof.
  unfold check_exit. run.
  destruct (_required_structured_model (self w)) as [schema|].
  - destruct (last _) as [so1|].
    + destruct (has_content_blocks "text" msg_reasoning); run;
        eexists _, _; (split; [done|]); (split; [done|]).
      * done.
      * unfold with_memory, Memory.add. cbn. rewrite map_app.
        by eexists.
    + destruct (negb _); run; by eexists _, _.
  - destruct (negb _); run; eexists _, _; (split; [done|]); (split; [done|]).
    + unfold with_memory, Memory.assign_metadata. cbn. rewrite map_map.
      erewrite map_ext; [done|]. intros [x mk]. cbn.
      by destruct (Nat.eqb _ _).
    + done.
Qed.

Lemma extends_keys (w w' : World) : extends w w' -> keys w `prefix_of` keys w'.
Proof.
  intros (_ & _ & _ & x & -> & _). rewrite map_app. by eexists.
Qed.

Lemma reply_loop_frame iters tool_choice so (w : World) :
  let w' := snd (reply_loop cfg env iters tool_choice so w) in
  keys w `prefix_of` keys w'
  ∧ length (reasoning_prompts w') ≤ length (reasoning_prompts w) + iters.
Proof.
  cbv zeta. revert tool_choice so w.
  induction iters as [|n IH]; intros tool_choice so w; cbn [reply_loop].
  { run. split; [done|lia]. }
  unfold reply_iteration. rewrite !run_bind.
  pose proof (_reasoning_extends cfg env tool_choice w) as Hk1%extends_keys.
  pose proof (_reasoning_prompt cfg env tool_choice w) as Hp1.
  destruct (_reasoning cfg env tool_choice w) as [[msg|e] w1];
    cbn [snd] in *.
  2:{ split; [done|]. rewrite Hp1, length_app. cbn. lia. }
  rewrite !run_bind.
  pose proof (acting_all_extends env (get_content_blocks "tool_use" msg) w1)
    as Hk2%extends_keys.
  destruct (acting_all_prompts (get_content_blocks "tool_use" msg) w1)
    as [Hp2 _].
  destruct (acting_all env _ w1) as [[outs|e] w2]; cbn [snd] in *.
  2:{ split; [by etrans|]. rewrite Hp2, Hp1, length_app. cbn. lia. }
  destruct (check_exit_frame msg outs tool_choice so w2)
    as (x & w3 & -> & Hp3 & Hk3).
  destruct x as [m so1|tc1 so1]; run.
  - split; [by repeat (etrans; [eassumption|])|].
    rewrite Hp3, Hp2, Hp1, length_app. cbn. lia.
  - destruct (IH tc1 so1 w3) as [Hk4 Hp4]. split.
    + by repeat (etrans; [eassumption|]).
    + rewrite Hp3, Hp2, Hp1, length_app in Hp4. cbn in Hp4. lia.
Qed.

Lemma _summarizing_prompts (w : World) :
  reasoning_prompts (snd (_summarizing cfg env w)) = reasoning_prompts w.
Proof.
  unfold _summarizing. run.
  destruct (model env _ _ _ _) as [e|res]; run; [done|].
  by destruct (raised res).
Qed.

Lemma reply_frame (msg : list Msg) (structured_model : option Schema)
    (w : World) :
  let w' := snd (reply cfg env msg structured_model w) in
  keys w `prefix_of` keys w'
  ∧ length (reasoning_prompts w')
    ≤ length (reasoning_prompts w) + max_iters cfg.
Proof.
  cbv zeta. unfold reply. rewrite run_bind.
  destruct (reply_setup_run msg structured_model w)
    as (w1 & x & -> & _ & _ & _ & Hp0 & _ & Hm0 & _).
  assert (Hk0 : keys w `prefix_of` keys w1).
  { rewrite Hm0, map_app. by eexists. }
  rewrite run_bind.
  destruct (reply_loop_frame (max_iters cfg)
              (match structured_model with
               | Some _ => Some choice_required
               | None => None
               end) JNone w1) as [Hk1 Hp1].
  destruct (reply_loop cfg env _ _ _ w1) as [[[[m|] so]|e] w2];
    cbn [snd] in *; rewrite Hp0 in Hp1.
  - run. split; [by etrans|done].
  - rewrite run_bind.
    pose proof (_summarizing_frame cfg env w2) as Hs.
    pose proof (_summarizing_prompts w2) as Hsp.
    destruct (_summarizing cfg env w2) as [[res|e] w3]; cbn [snd] in *.
    + run. rewrite Hs, Hsp. split; [|done].
      etrans; [exact Hk0|]. etrans; [exact Hk1|].
      unfold with_memory, Memory.add. cbn. rewrite map_app. by eexists.
    + rewrite Hs, Hsp. split; [by etrans|done].
  - split; [by etrans|done].
Qed.

(** X18. Whatever [reply] does and however it ends, the identities and marks
    of the turns that were in the log are still there, in the same order, at
    the head of the log: [reply] only appends. *)
Theorem reply_never_rewrites_the_log (msg : list Msg)
    (structured_model : option Schema) (w : World) :
  ∃ added,
    List.map (fun e => (msg_id (fst e), snd e))
             (mem_content
                (memory (self (snd (reply cfg env msg structured_model w)))))
    = List.map (fun e => (msg_id (fst e), snd e))
               (mem_content (memory (self w)))
      ++ added.
Proof.
  destruct (reply_frame msg structured_model w) as [[added Hk] _].
  by exists added.
Qed.

(** X19. A call of [reply] performs at most [max_iters] reasoning steps,
    however it ends. *)
Theorem reply_reasons_within_budget (msg : list Msg)
    (structured_model : option Schema) (w : World) :
  length (reasoning_prompts (snd (reply cfg env msg structured_model w)))
  ≤ length (reasoning_prompts w) + max_iters cfg.
Proof. apply reply_frame. Qed.

(** X20. Without a result schema, the reply that [reply] returns has metadata
    [None], whichever way the loop is left. *)
Theorem reply_without_schema_has_no_metadata (msg : list Msg) (w w' : World)
    (m : Msg) :
  reply cfg env msg None w = (Return m, w') ->
  msg_metadata m = JNone.
Proof.
  unfold reply. rewrite run_bind.
  destruct (reply_setup_run msg None w) as (w1 & x & -> & Hr & _).
  rewrite run_bind.
  pose proof (reply_loop_not_pending cfg env (max_iters cfg) None JNone w1 Hr)
    as Hloop.
  destruct (reply_loop cfg env _ _ _ w1) as [[[r so]|e] w2]; [|by intros [=]].
  destruct (Hloop r so w2 eq_refl) as [-> Hm].
  destruct r as [m'|]; run.
  - intros [= <- _]. by apply Hm.
  - destruct (_summarizing cfg env w2) as [[res|e] w3]; run; [|by intros [=]].
    by intros [= <- _].
Qed.

(** X21. With a result schema and a budget of at least one iteration, if the
    tool calls of the first reasoning turn give a validated output that
    Python takes as true, every reply that [reply] returns carries that
    output as its metadata. *)
Theorem validated_data_is_the_reply_metadata (msg : list Msg) (sm : Schema)
    (w w2 w3 w' : World) (msg_reasoning m : Msg) (outs : list Json)
    (data : Json) (iters : nat) :
  max_iters cfg = S iters ->
  _reasoning cfg env (Some choice_required)
             (snd (reply_setup cfg env msg (Some sm) w))
  = (Return msg_reasoning, w2) ->
  acting_all env (get_content_blocks "tool_use" msg_reasoning) w2
  = (Return outs, w3) ->
  last (List.filter truthy outs) = Some data ->
  reply cfg env msg (Some sm) w = (Return m, w') ->
  msg_metadata m = data.
Proof.
  intros Hit Hrun Hact Hlast. unfold reply. rewrite run_bind.
  destruct (reply_setup_run msg (Some sm) w) as (w1 & x & Hset & Hr & _).
  rewrite Hset in Hrun |- *. cbn [snd] in Hrun. rewrite run_bind, Hit.
  pose proof (validated_output_kept cfg env iters (Some choice_required) JNone
                w1 w2 w3 msg_reasoning outs data sm Hrun Hact Hr Hlast)
    as Hloop.
  destruct (reply_loop cfg env _ _ _ w1) as [[[r so]|e] w4]; [|by intros [=]].
  destruct (Hloop r so w4 eq_refl) as [-> Hm].
  destruct r as [m'|]; run.
  - intros [= <- _]. by apply Hm.
  - destruct (_summarizing cfg env w4) as [[res|e] w5]; run; [|by intros [=]].
    by intros [= <- _].
Qed.

(** X22. After [reply] has prepared the loop with a schema, the finishing tool
    is registered and the schema pending; preparing again with another schema
    leaves the registered tools as they are and binds the new schema;
    preparing without a schema removes the finishing tool and leaves no
    schema pending. *)
Theorem finish_tool_follows_the_schema (msg1 msg2 : list Msg)
    (sm1 sm2 : Schema) (w : World) :
  let w1 := snd (reply_setup cfg env msg1 (Some sm1) w) in
  let w2 := snd (reply_setup cfg env msg2 (Some sm2) w1) in
  let w3 := snd (reply_setup cfg env msg2 None w1) in
  finish_registered (self w1) = true
  ∧ _required_structured_model (self w1) = Some sm1
  ∧ tools (toolkit (self w2)) = tools (toolkit (self w1))
  ∧ extended_model (toolkit (self w2)) = Some (finish_function_name, sm2)
  ∧ finish_registered (self w3) = false
  ∧ _required_structured_model (self w3) = None.
Proof.
  cbv zeta.
  destruct (reply_setup_run msg1 (Some sm1) w)
    as (w1 & x1 & -> & Hr1 & Ht1 & _). cbn [snd].
  destruct (reply_setup_run msg2 (Some sm2) w1)
    as (w2 & x2 & -> & Hr2 & Ht2 & _).
  destruct (reply_setup_run msg2 None w1)
    as (w3 & x3 & -> & Hr3 & Ht3 & _). cbn [snd].
  assert (Hreg : finish_registered (self w1) = true).
  { unfold finish_registered. rewrite Ht1. unfold register_finish.
    cbn [tools].
    destruct (List.existsb _ (tools (toolkit (self w)))) eqn:He; [done|].
    rewrite existsb_app. cbn. by rewrite orb_true_r. }
  split; [done|]. split; [done|]. split.
  { rewrite Ht2. unfold register_finish. cbn [tools].
    unfold finish_registered in Hreg. by rewrite Hreg. }
  split; [by rewrite Ht2|]. split; [|done].
  unfold finish_registered. rewrite Ht3. unfold remove_finish. cbn [tools].
  clear. induction (tools (toolkit (self w1))) as [|n l IH]; [done|].
  cbn [List.filter].
  destruct (String.eqb_spec n finish_function_name) as [->|Hne];
    cbn [negb]; [exact IH|].
  cbn [List.existsb]. rewrite IH, orb_false_r.
  apply String.eqb_neq. congruence.
Qed.

(** X23. With no input message, what [reply] does before the loop leaves the
    log, the hint store and the supply of identities as they are, whatever
    the retrieval collaborators would return. *)
Theorem reply_with_no_input_adds_nothing (structured_model : option Schema)
    (w : World) :
  let w1 := snd (reply_setup cfg env [] structured_model w) in
  memory (self w1) = memory (self w)
  ∧ _reasoning_hint_msgs (self w1) = _reasoning_hint_msgs (self w)
  ∧ next_id w1 = next_id w.
Proof.
  cbv zeta.
  destruct (reply_setup_run [] structured_model w)
    as (w1 & x & -> & _ & _ & Hh & _ & Hs & Hm & Hn & Hx). cbn [snd].
  rewrite (Hx eq_refl) in Hm, Hn. cbn in Hm, Hn. rewrite app_nil_r in Hm.
  split; [|done].
  destruct (memory (self w1)), (memory (self w)). cbn in *. congruence.
Qed.

End MoreLoop.

(** ** Hints, interruption and the other methods *)

Lemma ids_get_memory_all (m : InMemoryMemory) :
  List.map msg_id (Memory.get_memory None m) = Memory.ids m.
Proof.
  unfold Memory.get_memory, Memory.ids.
  induction (mem_content m) as [|e l IH]; [done|]. cbn. by rewrite IH.
Qed.

Section Hints.

Context {Prompt Schema : Type}.
Variable cfg : @Config Prompt Schema.
Variable env : @Env Prompt Schema.
Local Abbreviation World := (@World Schema).

(** The reminder of the loop for a pending schema. *)
Lemma check_exit_reminder msg_reasoning outs tool_choice so (w : World) schema :
  _required_structured_model (self w) = Some schema ->
  last (List.filter truthy outs) = None ->
  has_content_blocks "tool_use" msg_reasoning = false ->
  ∃ c,
    check_exit cfg msg_reasoning outs tool_choice so w
    = (Return (Continue (Some choice_required) so),
       mkWorld
         (with_hints (Memory.add [mkMsg (next_id w) "user" c user JNone] None)
                     (self w))
         (S (next_id w)) (reasoning_prompts w)).
Proof.
  intros Hs Hlast Hno. unfold check_exit. run. rewrite Hs, Hlast, Hno.
  cbn [negb]. run. by eexists.
Qed.

(** X24. When a schema is pending and the reasoning turn has neither a
    validated output nor a tool request, the loop continues with the tool
    choice [required] and a reminder that is put in the hint store, not in
    the log; the reminder is in the next reasoning step's prompt, and no turn
    of the prompt of the step after that one has its identity. *)
Theorem reminder_is_used_once (msg_reasoning : Msg) (outs : list Json)
    (tool_choice tool_choice' : option ToolChoice) (so : Json) (w : World)
    (schema : Schema) :
  ids_bounded w ->
  _required_structured_model (self w) = Some schema ->
  last (List.filter truthy outs) = None ->
  has_content_blocks "tool_use" msg_reasoning = false ->
  ∃ w' hint,
    check_exit cfg msg_reasoning outs tool_choice so w
    = (Return (Continue (Some choice_required) so), w')
    ∧ memory (self w') = memory (self w)
    ∧ mem_content (_reasoning_hint_msgs (self w'))
      = mem_content (_reasoning_hint_msgs (self w)) ++ [(hint, None)]
    ∧ hint ∈ reasoning_msgs cfg env w'
    ∧ msg_id hint
      ∉ List.map msg_id
          (reasoning_msgs cfg env (snd (_reasoning cfg env tool_choice' w'))).
Proof.
  intros Hb Hs Hlast Hno.
  destruct (check_exit_reminder msg_reasoning outs tool_choice so w schema
              Hs Hlast Hno) as [c Hrun].
  rewrite Hrun. set (w' := mkWorld _ _ _).
  exists w', (mkMsg (next_id w) "user" c user JNone).
  split; [done|]. split; [done|]. split; [done|]. split.
  - unfold reasoning_msgs. cbv zeta.
    destruct (after_plan_hint_frame env w') as (-> & _).
    apply elem_of_cons. right. apply elem_of_app. right.
    unfold Memory.get_memory. cbn.
    rewrite List.filter_app, List.map_app. apply elem_of_app. right. cbn.
    by apply list_elem_of_singleton.
  - cbn [msg_id].
    set (w2 := snd (_reasoning cfg env tool_choice' w')).
    pose proof (_reasoning_extends cfg env tool_choice' w') as Hext. fold w2 in Hext.
    pose proof (hint_store_drained cfg env tool_choice' w') as Hdr. fold w2 in Hdr.
    pose proof (after_plan_hint_extends env w2) as Hext2.
    pose proof (extends_trans _ _ _ Hext Hext2)
      as (_ & _ & Hn & x & Hm & Hx).
    destruct (after_plan_hint_frame env w2) as (Hh & _).
    unfold reasoning_msgs. cbv zeta.
    cbn [List.map msg_id]. rewrite map_app, !ids_get_memory_all.
    unfold Memory.ids. rewrite Hh, Hdr, Hm. cbn [List.map]. rewrite app_nil_r.
    assert (Hn' : next_id w' = S (next_id w)) by done.
    assert (Hm' : mem_content (memory (self w'))
                  = mem_content (memory (self w))) by done.
    rewrite Hn' in Hn, Hx. rewrite Hm'. intros Hin.
    apply elem_of_cons in Hin as [Heq|Hin]; [lia|].
    rewrite map_app in Hin. apply elem_of_app in Hin as [Hin|Hin].
    + unfold ids_bounded, Memory.ids in Hb.
      eapply Forall_forall in Hb; [|exact Hin]. lia.
    + apply list_elem_of_In, in_map_iff in Hin as (e & He & Hin).
      apply list_elem_of_In in Hin.
      eapply Forall_forall in Hx; [|exact Hin]. lia.
Qed.

(** X25. When the last pass of the loop ends on that reminder, the loop ends
    without a reply and the reminder is left in the hint store; the fallback
    summary does not touch it. *)
Theorem last_pass_leaves_its_reminder (tool_choice : option ToolChoice)
    (so : Json) (w w1 : World) (msg_reasoning : Msg) (schema : Schema) :
  _required_structured_model (self w) = Some schema ->
  _reasoning cfg env tool_choice w = (Return msg_reasoning, w1) ->
  has_content_blocks "tool_use" msg_reasoning = false ->
  ∃ w' hint,
    reply_loop cfg env 1 tool_choice so w = (Return (None, so), w')
    ∧ mem_content (_reasoning_hint_msgs (self w')) = [(hint, None)]
    ∧ self (snd (_summarizing cfg env w')) = self w'.
Proof.
  intros Hs Hrun Hno.
  pose proof (_reasoning_extends cfg env tool_choice w) as (Hr & _).
  pose proof (hint_store_drained cfg env tool_choice w) as Hdr.
  rewrite Hrun in Hr, Hdr. cbn [snd] in Hr, Hdr.
  cbn [reply_loop]. unfold reply_iteration. rewrite !run_bind, Hrun.
  run. unfold has_content_blocks in Hno.
  destruct (get_content_blocks "tool_use" msg_reasoning) eqn:Hcalls; [|done].
  cbn [acting_all]. run.
  destruct (check_exit_reminder msg_reasoning [] tool_choice so w1 schema)
    as [c Hce]; [congruence|done|by unfold has_content_blocks; rewrite Hcalls|].
  rewrite Hce. run. eexists _, _. split; [done|]. split.
  - unfold with_hints, Memory.add. cbn. by rewrite Hdr.
  - apply _summarizing_frame.
Qed.

(** X26. After a reasoning step cancelled while the model's answer was
    consumed, [handle_interrupt] returns an assistant reply flagged
    [_is_interrupted] and appends it; the log then ends with the assistant
    turn received so far, one interrupted result per tool request of that
    turn, with the request's identifier and name and in order, and the
    reply. *)
Theorem interruption_leaves_requests_answered
    (tool_choice : option ToolChoice) (w : World)
    (res : Stream ChatResponse) (msg : list Msg) (sm : option Schema) :
  model_answer cfg env tool_choice w = Responds res ->
  raised res = Some CancelledError ->
  ∃ r w2 results,
    handle_interrupt cfg msg sm (snd (_reasoning cfg env tool_choice w))
    = (Return r, w2)
    ∧ msg_role r = assistant
    ∧ dict_get "_is_interrupted" JNone (msg_metadata r) = JBool true
    ∧ mem_content (memory (self w2)) =
      mem_content (memory (self (after_plan_hint env w)))
      ++ (assistant_turn cfg env w res, None)
         :: unmarked results ++ [(r, None)]
    ∧ List.map msg_content results =
      List.map
        (fun b => [ToolResultBlock (block_id b) (block_name b)
                                   (inl "工具调用已被用户中断")])
        (get_content_blocks "tool_use" (assistant_turn cfg env w res)).
Proof.
  intros Hans Hres.
  pose proof (_reasoning_run cfg env tool_choice w) as H. cbv zeta in H.
  rewrite H, Hans, Hres. cbn [snd]. unfold handle_interrupt. run.
  eexists _, _, _. split; [done|]. split; [done|]. split; [done|].
  split; [|apply interrupted_turns_blocks].
  unfold with_memory, with_hints, Memory.add. cbn.
  by rewrite <- app_assoc.
Qed.

(** X27. [observe] appends its messages unmarked, in order, without a
    reasoning step and without making a message; each of them is in the
    prompt of the next reasoning step. *)
Theorem observed_messages_reach_the_next_prompt (msg : list Msg) (w : World) :
  ∃ w',
    observe msg w = (Return tt, w')
    ∧ mem_content (memory (self w'))
      = mem_content (memory (self w)) ++ unmarked msg
    ∧ reasoning_prompts w' = reasoning_prompts w
    ∧ next_id w' = next_id w
    ∧ ∀ m, m ∈ msg -> m ∈ reasoning_msgs cfg env w'.
Proof.
  unfold observe. run. eexists. split; [done|]. split; [done|].
  split; [done|]. split; [done|]. intros m Hm.
  apply (logged_in_next_prompt cfg env _ m None).
  unfold with_memory, Memory.add. cbn. apply elem_of_app. right.
  apply list_elem_of_In. apply (in_map (fun x : Msg => (x, @None _MemoryMark))).
  by apply list_elem_of_In.
Qed.

(** X28. When no long-term memory is given, or the mode is [agent_control],
    static control is off and agent control is on exactly when a long-term
    memory is given; [reply] then makes no retrieval from long-term memory,
    whatever the input. *)
Theorem no_static_control_no_retrieval (long_term_memory : bool)
    (mode : LongTermMemoryMode) (msg : list Msg) (w : World) :
  _static_control cfg = init_static_control long_term_memory mode ->
  long_term_memory = false ∨ mode = agent_control ->
  init_agent_control long_term_memory mode = long_term_memory
  ∧ _retrieve_from_long_term_memory cfg env msg w = (Return tt, w).
Proof.
  intros Hcfg Hoff.
  assert (Hs : _static_control cfg = false).
  { rewrite Hcfg. destruct Hoff as [-> | ->]; [done|].
    by destruct long_term_memory. }
  split.
  - destruct Hoff as [-> | ->]; [done|]. by destruct long_term_memory.
  - unfold _retrieve_from_long_term_memory. by rewrite Hs.
Qed.

End Hints.

(** ** The further properties on concrete agents *)

Import MoreScenario.

Lemma retained_pairs_are_whole_witness :
  retained 2 [tA; tB; tC; tD] = [tB; tC; tD]
  ∧ ∃ m' b', m' ∈ [tB] ++ [tC]
             ∧ b' ∈ get_content_blocks "tool_use" m'
             ∧ block_id b' = "1".
Proof.
  split; [by vm_compute|].
  apply (retained_pairs_are_whole 2 [tA; tB; tC; tD] [tB] [tD] tC
           (ToolResultBlock "1" "weather" (inl "sunny"))).
  - lia.
  - by vm_compute.
  - vm_compute. by apply list_elem_of_singleton.
Defined.

Lemma nothing_to_keep_witness :
  compaction_candidate 0 [tB; tC] = [tB]
  ∧ length (retained 0 [tB; tC]) = 1.
Proof.
  apply (nothing_to_keep_keeps_the_last_turn 0 [tB; tC]); [lia|done].
Defined.

Lemma too_few_units_witness :
  compaction_candidate 3 [tA; tB; tC] = [tA; tB; tC]
  ∧ retained 3 [tA; tB; tC] = [].
Proof.
  apply (too_few_units_all_selected 3 [tA; tB; tC]). by vm_compute.
Defined.

Lemma retained_units_witness :
  count_units (retained 3 (List.map fst six_turns)) = 3%Z.
Proof.
  apply (retained_units_are_keep_recent 3 (List.map fst six_turns));
    [lia|by vm_compute].
Defined.

Lemma compaction_cheap_witness :
  ∃ w',
    _compress_memory_if_needed
      (mk_cfg 2 (Some (priced 400)))
      (mk_env (scripted summary_stream) None) (world_with six_turns 6)
    = (Return tt, w')
    ∧ self w' = self (world_with six_turns 6).
Proof.
  apply (compaction_off_or_cheap_is_noop
           (mk_cfg 2 (Some (priced 400)))
           (mk_env (scripted summary_stream) None) (world_with six_turns 6)).
  right. intros p. cbn. lia.
Defined.

Lemma compaction_failure_witness :
  fst (_compress_memory_if_needed
         (mk_cfg 2 (Some (priced 300)))
         (mk_env (scripted empty_stream) None) (world_with six_turns 6))
  = Raise (OtherError "AttributeError")
  ∧ self (snd (_compress_memory_if_needed
                 (mk_cfg 2 (Some (priced 300)))
                 (mk_env (scripted empty_stream) None)
                 (world_with six_turns 6)))
    = self (world_with six_turns 6).
Proof.
  split; [by vm_compute|].
  apply (compaction_failure_changes_nothing
           (mk_cfg 2 (Some (priced 300)))
           (mk_env (scripted empty_stream) None) (world_with six_turns 6)
           _ (OtherError "AttributeError")).
  by vm_compute.
Defined.


Lemma stream_error_witness :
  ∃ w',
    _reasoning (mk_cfg 2 None) (mk_env (scripted failing_stream) None) None
               (world_with [(tA, None)] 1)
    = (Raise (OtherError "connection reset"), w')
    ∧ mem_content (memory (self w'))
      = [(tA, None);
         (mkMsg 2 "Friday"
                [TextBlock "Let me check";
                 ToolUseBlock "1" "weather" (JDict [])]
                assistant JNone, None)].
Proof.
  apply (stream_error_logs_turn_only
           (mk_cfg 2 None) (mk_env (scripted failing_stream) None) None
           (world_with [(tA, None)] 1) failing_stream "connection reset");
    by vm_compute.
Defined.

Lemma failed_model_call_witness :
  ∃ w',
    _reasoning (mk_cfg 2 None)
               (mk_env (fun _ _ _ _ => CallRaises (OtherError "503")) None)
               None hinted
    = (Raise (OtherError "503"), w')
    ∧ memory (self w') = memory (self hinted)
    ∧ mem_content (_reasoning_hint_msgs (self w')) = []
    ∧ reasoning_prompts w'
      = [[mkMsg 2 "system" [TextBlock "You are a helpful assistant."] system
                JNone;
          tA; text_msg 1 user "Be brief."]].
Proof.
  apply (failed_model_call_uses_up_hints
           (mk_cfg 2 None)
           (mk_env (fun _ _ _ _ => CallRaises (OtherError "503")) None)
           None hinted (OtherError "503")).
  by vm_compute.
Defined.

Lemma structured_output_source_witness :
  fst (_acting (mk_env (scripted (says [])) None) answer_call
               (asked ["answer"]))
  = Return (JDict [("answer", JStr "42")])
  ∧ block_name answer_call = finish_function_name
  ∧ (finish_registered (self (asked ["answer"])) = true ->
     ∃ schema,
       _required_structured_model (self (asked ["answer"])) = Some schema
       ∧ validate schema (block_input answer_call)
         = inr (JDict [("answer", JStr "42")])).
Proof.
  split; [by vm_compute|].
  apply (structured_output_has_one_source
           (mk_env (scripted (says [])) None) answer_call (asked ["answer"])
           (snd (_acting (mk_env (scripted (says [])) None) answer_call
                         (asked ["answer"])))
           (JDict [("answer", JStr "42")])).
  - by vm_compute.
  - discriminate.
Defined.

Lemma interrupted_chunk_witness :
  ∃ w',
    _acting tools_env (call "7" "search") (world_with [(tA, None)] 1)
    = (Raise CancelledError, w')
    ∧ mem_content (memory (self w'))
      = [(tA, None);
         (mkMsg 1 "system"
                [ToolResultBlock "7" "search" (inr [TextBlock "2 hits"])]
                system JNone, None)].
Proof.
  apply (interrupted_chunk_is_recorded
           tools_env (call "7" "search") (world_with [(tA, None)] 1)
           [mkToolResponse [TextBlock "1 hit"] JNone false false]
           [mkToolResponse [TextBlock "3 hits"] JNone true false]
           (mkToolResponse [TextBlock "2 hits"] JNone false true) None).
  - discriminate.
  - by vm_compute.
  - by repeat constructor.
  - by vm_compute.
Defined.

Lemma valid_finish_call_witness :
  ∃ w',
    _acting (mk_env (scripted (says [])) None) finish_call (asked [])
    = (Return (JDict []), w')
    ∧ mem_content (memory (self w'))
      = [(tA, None);
         (mkMsg 1 "system"
                [ToolResultBlock "call_1" "generate_response"
                                 (inr [TextBlock "成功生成响应"])]
                system JNone, None)]
    ∧ _required_structured_model (self w') = Some [].
Proof.
  apply (valid_finish_call_returns_data
           (mk_env (scripted (says [])) None) finish_call (asked []) []
           (JDict [])); by vm_compute.
Defined.

Lemma requests_after_a_failure_witness :
  ∃ w' turns,
    acting_all tools_env
      ([call "1" "weather"] ++ call "2" "search" :: [call "3" "weather"])
      (world_with [(tA, None)] 1)
    = (Raise CancelledError, w')
    ∧ mem_content (memory (self w')) = [(tA, None)] ++ unmarked turns
    ∧ List.map (fun m => List.map (fun b => (block_id b, block_name b))
                                  (msg_content m)) turns
      = [[("1", "weather")]; [("2", "search")]].
Proof.
  apply (requests_after_a_failure_stay_unanswered
           tools_env [call "1" "weather"] [call "3" "weather"]
           (call "2" "search") CancelledError (world_with [(tA, None)] 1)).
  - constructor; [|constructor]. eexists. by vm_compute.
  - by vm_compute.
Defined.


Lemma reply_without_schema_witness :
  let r := reply (mk_cfg 2 None)
                 (mk_env (scripted (says [TextBlock "Hello."])) None)
                 [tA] None (world_with [] 1) in
  fst r = Return (mkMsg 2 "Friday" [TextBlock "Hello."] assistant JNone)
  ∧ msg_metadata (mkMsg 2 "Friday" [TextBlock "Hello."] assistant JNone)
    = JNone.
Proof.
  cbv zeta. split; [by vm_compute|].
  apply (reply_without_schema_has_no_metadata
           (mk_cfg 2 None)
           (mk_env (scripted (says [TextBlock "Hello."])) None)
           [tA] (world_with [] 1)
           (snd (reply (mk_cfg 2 None)
                       (mk_env (scripted (says [TextBlock "Hello."])) None)
                       [tA] None (world_with [] 1)))).
  by vm_compute.
Defined.

Lemma validated_data_witness :
  let cfg := mk_cfg 2 None in
  let env := mk_env (scripted (says [answer_call])) None in
  ∃ m,
    fst (reply cfg env [tA] (Some ["answer"]) (world_with [] 1)) = Return m
    ∧ msg_metadata m = JDict [("answer", JStr "42")].
Proof.
  cbv zeta.
  set (cfg := mk_cfg 2 None).
  set (env := mk_env (scripted (says [answer_call])) None).
  set (r := reply cfg env [tA] (Some ["answer"]) (world_with [] 1)).
  set (w1 := snd (reply_setup cfg env [tA] (Some ["answer"])
                              (world_with [] 1))).
  set (w2 := snd (_reasoning cfg env (Some choice_required) w1)).
  set (w3 := snd (acting_all env [answer_call] w2)).
  exists (mkMsg 10 "Friday" [answer_call] assistant
                (JDict [("answer", JStr "42")])).
  split; [by vm_compute|].
  apply (validated_data_is_the_reply_metadata
           cfg env [tA] ["answer"] (world_with [] 1) w2 w3 (snd r)
           (mkMsg 2 "Friday" [answer_call] assistant JNone)
           (mkMsg 10 "Friday" [answer_call] assistant
                  (JDict [("answer", JStr "42")]))
           [JDict [("answer", JStr "42")]]
           (JDict [("answer", JStr "42")]) 1); by vm_compute.
Defined.

Lemma reminder_witness :
  let cfg := mk_cfg 2 None in
  let env := mk_env (scripted (says [TextBlock "Still thinking."])) None in
  ∃ w' hint,
    check_exit cfg (text_msg 1 assistant "Still thinking.") []
               (Some choice_required) JNone (asked ["answer"])
    = (Return (Continue (Some choice_required) JNone), w')
    ∧ memory (self w') = memory (self (asked ["answer"]))
    ∧ mem_content (_reasoning_hint_msgs (self w')) = [] ++ [(hint, None)]
    ∧ hint ∈ reasoning_msgs cfg env w'
    ∧ msg_id hint
      ∉ List.map msg_id
          (reasoning_msgs cfg env
             (snd (_reasoning cfg env (Some choice_required) w'))).
Proof.
  cbv zeta.
  apply (reminder_is_used_once
           (mk_cfg 2 None)
           (mk_env (scripted (says [TextBlock "Still thinking."])) None)
           (text_msg 1 assistant "Still thinking.") []
           (Some choice_required) (Some choice_required) JNone
           (asked ["answer"]) ["answer"]).
  - unfold ids_bounded. by vm_compute; repeat constructor.
  - by vm_compute.
  - by vm_compute.
  - by vm_compute.
Defined.

Lemma last_pass_witness :
  let cfg := mk_cfg 2 None in
  let env := mk_env (scripted (says [TextBlock "Still thinking."])) None in
  ∃ w' hint,
    reply_loop cfg env 1 (Some choice_required) JNone (asked ["answer"])
    = (Return (None, JNone), w')
    ∧ mem_content (_reasoning_hint_msgs (self w')) = [(hint, None)]
    ∧ self (snd (_summarizing cfg env w')) = self w'.
Proof.
  cbv zeta.
  apply (last_pass_leaves_its_reminder
           (mk_cfg 2 None)
           (mk_env (scripted (says [TextBlock "Still thinking."])) None)
           (Some choice_required) JNone (asked ["answer"])
           (snd (_reasoning (mk_cfg 2 None)
                   (mk_env (scripted (says [TextBlock "Still thinking."]))
                           None)
                   (Some choice_required) (asked ["answer"])))
           (mkMsg 2 "Friday" [TextBlock "Still thinking."] assistant JNone)
           ["answer"]); by vm_compute.
Defined.

Lemma interruption_witness :
  let cfg := mk_cfg 2 None in
  let env := mk_env (scripted cut_stream) None in
  ∃ r w2 results,
    handle_interrupt cfg [] None
      (snd (_reasoning cfg env None (world_with [(tA, None)] 1)))
    = (Return r, w2)
    ∧ msg_role r = assistant
    ∧ dict_get "_is_interrupted" JNone (msg_metadata r) = JBool true
    ∧ mem_content (memory (self w2)) =
      [(tA, None)]
      ++ (mkMsg 2 "Friday"
                [TextBlock "Let me check the weather.";
                 ToolUseBlock "1" "weather" (JDict [])]
                assistant JNone, None)
         :: unmarked results ++ [(r, None)]
    ∧ List.map msg_content results =
      [[ToolResultBlock "1" "weather" (inl "工具调用已被用户中断")]].
Proof.
  cbv zeta.
  apply (interruption_leaves_requests_answered
           (mk_cfg 2 None) (mk_env (scripted cut_stream) None) None
           (world_with [(tA, None)] 1) cut_stream [] None); by vm_compute.
Defined.

Lemma no_static_control_witness :
  init_agent_control true agent_control = true
  ∧ _retrieve_from_long_term_memory
      (mk_cfg 2 None) (mk_env (scripted (says [])) None) [tA]
      (world_with [] 1)
    = (Return tt, world_with [] 1).
Proof.
  apply (no_static_control_no_retrieval
           (mk_cfg 2 None) (mk_env (scripted (says [])) None)
           true agent_control [tA] (world_with [] 1)).
  - by vm_compute.
  - by right.
Defined.
